(** * xefind: availability report for XENONnT processed data

    A shallow embedding of [xefind/find.py] and the properties of its
    input resolver, lineage resolver and availability counter.

    Conventions of the embedding.
    - Python [str] values are Rocq strings; a character stands for the code
      point of the same number, so the text covered is the one whose code
      points are below 256.
    - Python dictionaries that the program iterates over, sends to the
      database or turns into table rows keep their insertion order: they are
      association lists with unique keys ([pydict]).  The module-level tables
      that are only indexed by key are finite maps.
    - The document database is an environment the program only reads.  The
      module-level objects the program mutates ([LOCATIONS], [SCIENCE_RUNS]),
      the queries it issues and the lines it prints live in a [world] that
      every operation threads through; an exception keeps the world as it
      was when it was raised. *)

From Stdlib Require Import ZArith NArith String Ascii List Bool Lia.
From Stdlib Require Import DecimalString DecimalPos DecimalN.
From Stdlib Require Import Floats.SpecFloat.
From stdpp Require Import gmap strings list.

Local Open Scope string_scope.
Local Open Scope Z_scope.

(** ** Python text primitives *)

Module PyStr.

Definition code (c : ascii) : N := N_of_ascii c.

  (** [c.isdigit()] for one character: the decimal digits and the
      superscript digits U+00B2, U+00B3, U+00B9. *)
Definition is_decimal_char (c : ascii) : bool :=
    ((48 <=? code c) && (code c <=? 57))%N.

Definition is_digit_char (c : ascii) : bool :=
    is_decimal_char c
    || (code c =? 178)%N || (code c =? 179)%N || (code c =? 185)%N.

Fixpoint all_chars (p : ascii -> bool) (s : string) : bool :=
    match s with
    | EmptyString => true
    | String c s' => p c && all_chars p s'
    end.

  (** [s.isdigit()]: at least one character, all of them digits. *)
Definition isdigit (s : string) : bool :=
    match s with
    | EmptyString => false
    | _ => all_chars is_digit_char s
    end.

Definition is_ascii_char (c : ascii) : bool := (code c <? 128)%N.
Definition is_ascii (s : string) : bool := all_chars is_ascii_char s.

  (** Line boundaries of [str.splitlines]: LF, VT, FF, CR, CR LF, FS, GS, RS
      and NEL. *)
Definition is_linebreak (c : ascii) : bool :=
    let n := code c in
    ((n =? 10) || (n =? 11) || (n =? 12) || (n =? 13)
     || (n =? 28) || (n =? 29) || (n =? 30) || (n =? 133))%N.

Definition is_cr (c : ascii) : bool := (code c =? 13)%N.
Definition is_lf (c : ascii) : bool := (code c =? 10)%N.

  (** [s.splitlines()].  Reading a file in text mode first turns CR and
      CR LF into LF; [splitlines] cuts at the same places before and after
      that translation, so it is applied to the decoded content directly. *)
Fixpoint splitlines (s : string) : list string :=
    match s with
    | EmptyString => []
    | String c s' =>
        if is_linebreak c then
          match s' with
          | String c' s'' =>
              if is_cr c && is_lf c' then EmptyString :: splitlines s''
              else EmptyString :: splitlines s'
          | EmptyString => [EmptyString]
          end
        else
          match splitlines s' with
          | [] => [String c EmptyString]
          | l :: ls => String c l :: ls
          end
    end.

  (** White space stripped by [int()]. *)
Definition is_space (c : ascii) : bool :=
    let n := code c in
    (((9 <=? n) && (n <=? 13)) || ((28 <=? n) && (n <=? 32))
     || (n =? 133) || (n =? 160))%N.

Fixpoint lstrip (s : string) : string :=
    match s with
    | String c s' => if is_space c then lstrip s' else s
    | EmptyString => EmptyString
    end.

Fixpoint rstrip (s : string) : string :=
    match s with
    | EmptyString => EmptyString
    | String c s' =>
        match rstrip s' with
        | EmptyString => if is_space c then EmptyString else String c EmptyString
        | r => String c r
        end
    end.

Definition strip (s : string) : string := rstrip (lstrip s).

Definition digit_val (c : ascii) : Z := Z.of_N (code c) - 48.

  (** The digit part of a base-10 integer literal: digits, with single
      underscores allowed between two digits. *)
Fixpoint int_digits (acc : Z) (after_digit : bool) (s : string) : option Z :=
    match s with
    | EmptyString => if after_digit then Some acc else None
    | String c s' =>
        if (code c =? 95)%N then
          if after_digit then int_digits acc false s' else None
        else if is_decimal_char c then int_digits (10 * acc + digit_val c) true s'
        else None
    end.

  (** [int(s)] for a string [s]; [None] stands for [ValueError]. *)
Definition int (s : string) : option Z :=
    match strip s with
    | String c r =>
        if (code c =? 45)%N then Z.opp <$> int_digits 0 false r
        else if (code c =? 43)%N then int_digits 0 false r
        else int_digits 0 false (String c r)
    | EmptyString => None
    end.

  (** [str(n)] for a non-negative integer. *)
Definition str_of_N (n : N) : string := NilZero.string_of_uint (N.to_uint n).

  (** [k.split('_')[0]]: the text before the first underscore. *)
Fixpoint before_underscore (s : string) : string :=
    match s with
    | EmptyString => EmptyString
    | String c s' =>
        if (code c =? 95)%N then EmptyString else String c (before_underscore s')
    end.

  (** Truth value of a string: empty is false. *)
Definition truthy (s : string) : bool :=
    match s with EmptyString => false | _ => true end.

End PyStr.

Definition LF : string := String (ascii_of_nat 10) EmptyString.
Definition CR : string := String (ascii_of_nat 13) EmptyString.

(** ** Python floats: IEEE 754 binary64, round to nearest even *)

Module PyFloat.

Definition prec : Z := 53.
Definition emax : Z := 1024.

Definition of_Z_exact (n : Z) : spec_float :=
    match n with
    | Z0 => S754_zero false
    | Zpos p => S754_finite false p 0
    | Zneg p => S754_finite true p 0
    end.

  (** [float(n)] for a small integer literal. *)
Definition of_Z (n : Z) : spec_float := binary_normalize prec emax n 0 false.

Inductive div_error := DivByZero | DivOverflow.

  (** [a / b] on two integers: the quotient of the exact integers, rounded
      once.  [ZeroDivisionError] for [b = 0], [OverflowError] when the
      quotient exceeds the largest float. *)
Definition int_true_divide (a b : Z) : div_error + spec_float :=
    if b =? 0 then inl DivByZero
    else
      match SFdiv prec emax (of_Z_exact a) (of_Z_exact b) with
      | S754_infinity _ => inl DivOverflow
      | x => inr x
      end.

Definition mul (x y : spec_float) : spec_float := SFmul prec emax x y.

  (** The integer nearest to [10 * m * 2^e], ties to even. *)
Definition round_tenths (m : positive) (e : Z) : Z :=
    let num := 10 * Zpos m in
    match e with
    | Zneg k =>
        let den := Z.pow_pos 2 k in
        let q := num / den in
        let r := num mod den in
        match Z.compare (2 * r) den with
        | Lt => q
        | Gt => q + 1
        | Eq => if Z.even q then q else q + 1
        end
    | _ => num * 2 ^ e
    end.

Definition sign_prefix (s : bool) : string := if s then "-" else "".

  (** [format(x, '.1f')]: the decimal with one fractional digit nearest to
      the exact value of [x], ties to even. *)
Definition format_1f (x : spec_float) : string :=
    match x with
    | S754_nan => "nan"
    | S754_infinity s => sign_prefix s ++ "inf"
    | S754_zero s => sign_prefix s ++ "0.0"
    | S754_finite s m e =>
        let t := round_tenths m e in
        sign_prefix s ++ PyStr.str_of_N (Z.to_N (t / 10)) ++ "."
          ++ PyStr.str_of_N (Z.to_N (t mod 10))
    end.

End PyFloat.

(** ** Python dictionaries with insertion order *)

Definition pydict (V : Type) : Type := list (string * V).

Fixpoint dict_get {V} (d : pydict V) (k : string) : option V :=
  match d with
  | [] => None
  | (k', v) :: d' => if String.eqb k' k then Some v else dict_get d' k
  end.

(** [d[k] = v]: an existing key keeps its place, a new key goes last. *)
Fixpoint dict_set {V} (d : pydict V) (k : string) (v : V) : pydict V :=
  match d with
  | [] => [(k, v)]
  | (k', v') :: d' =>
      if String.eqb k' k then (k', v) :: d' else (k', v') :: dict_set d' k v
  end.

(** [{**d, **e}]: the items of [e] written into [d] in their order. *)
Definition dict_update {V} (d e : pydict V) : pydict V :=
  fold_left (fun acc kv => dict_set acc kv.1 kv.2) e d.

(** ** The document database *)

Record datetime := mk_datetime {
  dt_year : Z; dt_month : Z; dt_day : Z;
  dt_hour : Z; dt_minute : Z; dt_second : Z; dt_microsecond : Z
}.

(** [datetime(y, m, d)]: midnight of that day. *)
Definition datetime_ymd (y m d : Z) : datetime := mk_datetime y m d 0 0 0 0.

Fixpoint lex_leb (a b : list Z) : bool :=
  match a, b with
  | x :: a', y :: b' => (x <? y) || ((x =? y) && lex_leb a' b')
  | [], _ => true
  | _ :: _, [] => false
  end.

Definition datetime_fields (t : datetime) : list Z :=
  [dt_year t; dt_month t; dt_day t; dt_hour t; dt_minute t; dt_second t;
   dt_microsecond t].

Definition datetime_leb (a b : datetime) : bool :=
  lex_leb (datetime_fields a) (datetime_fields b).

Definition datetime_eqb (a b : datetime) : bool :=
  datetime_leb a b && datetime_leb b a.

(** Scalar values stored in documents and used in queries. *)
Inductive bval :=
| BStr (s : string)
| BInt (n : Z)
| BDate (t : datetime).

Definition bval_eqb (a b : bval) : bool :=
  match a, b with
  | BStr x, BStr y => String.eqb x y
  | BInt x, BInt y => x =? y
  | BDate x, BDate y => datetime_eqb x y
  | _, _ => false
  end.

(** [a <= b], which only holds between values of one type. *)
Definition bval_leb (a b : bval) : bool :=
  match a, b with
  | BStr x, BStr y => String.leb x y
  | BInt x, BInt y => x <=? y
  | BDate x, BDate y => datetime_leb x y
  | _, _ => false
  end.

(** The conditions the program puts in its queries.  A query is a dictionary
    from field paths (or ["$or"]) to conditions; all its entries must hold. *)
#[warnings="-register-all"]
Inductive cond :=
| CEq (v : bval)                              (* {path: v} *)
| CLte (v : bval)                             (* {path: {'$lte': v}} *)
| CIn (vs : list Z)                           (* {path: {'$in': vs}} *)
| CElemMatch (q : list (string * cond))       (* {path: {'$elemMatch': q}} *)
| COr (qs : list (list (string * cond))).     (* {'$or': qs} *)

Abbreviation query := (pydict cond).

(** What a query sees of a document: the values a field path reaches (a path
    through an array reaches each element's value; a missing field reaches
    none) and, for an array of sub-documents, the elements. *)
Record view := mk_view {
  v_field : string -> list bval;
  v_array : string -> list (string -> list bval)
}.

Definition leaf_holds (c : cond) (vals : list bval) : bool :=
  match c with
  | CEq v => existsb (bval_eqb v) vals
  | CLte v => existsb (fun x => bval_leb x v) vals
  | CIn zs =>
      existsb (fun x => match x with
                        | BInt z => existsb (Z.eqb z) zs
                        | _ => false
                        end) vals
  | _ => false
  end.

Fixpoint cond_holds (d : view) (k : string) (c : cond) : bool :=
  match c with
  | COr qs =>
      existsb (fun q => forallb (fun '(k', c') => cond_holds d k' c') q) qs
  | CElemMatch q =>
      existsb (fun e => forallb (fun '(k', c') => leaf_holds c' (e k')) q)
              (v_array d k)
  | _ => leaf_holds c (v_field d k)
  end.

Definition matches (d : view) (q : query) : bool :=
  forallb (fun '(k, c) => cond_holds d k c) q.

(** One entry of a run's [data] array. *)
Record data_entry := mk_data_entry {
  de_type : string;
  de_location : string;
  de_lineage_hash : string        (* meta.lineage_hash *)
}.

(** A document of the [runs] collection. *)
Record run_doc := mk_run_doc {
  number : Z;
  tags : list string;             (* the names of the entries of [tags] *)
  source : string;
  start : datetime;
  data : list data_entry
}.

(** A document of the [contexts] collection; [hashes] and the version
    fields may be missing. *)
Record ctx_doc := mk_ctx_doc {
  name : string;
  tag : string;
  hashes : option (gmap string string);
  straxen_version : option string;
  strax_version : option string;
  cutax_version : option string
}.

Record database := mk_database {
  runs : list run_doc;
  contexts : list ctx_doc
}.

Definition entry_view (e : data_entry) (k : string) : list bval :=
  if String.eqb k "type" then [BStr (de_type e)]
  else if String.eqb k "location" then [BStr (de_location e)]
  else if String.eqb k "meta.lineage_hash" then [BStr (de_lineage_hash e)]
  else [].

Definition run_view (r : run_doc) : view :=
  mk_view
    (fun k =>
       if String.eqb k "number" then [BInt (number r)]
       else if String.eqb k "tags.name" then BStr <$> tags r
       else if String.eqb k "source" then [BStr (source r)]
       else if String.eqb k "start" then [BDate (start r)]
       else [])
    (fun k => if String.eqb k "data" then entry_view <$> data r else []).

(** [res.get(k)] on a context document, for the version fields. *)
Definition ctx_get (d : ctx_doc) (k : string) : option string :=
  if String.eqb k "straxen_version" then straxen_version d
  else if String.eqb k "strax_version" then strax_version d
  else if String.eqb k "cutax_version" then cutax_version d
  else None.

Definition ctx_view (d : ctx_doc) : view :=
  mk_view
    (fun k =>
       if String.eqb k "name" then [BStr (name d)]
       else if String.eqb k "tag" then [BStr (tag d)]
       else match ctx_get d k with Some v => [BStr v] | None => [] end)
    (fun _ => []).

(** ** The world the program runs in *)

Inductive exn :=
| ValueError (msg : string)
| KeyError (key : string)
| NameError (name : string)
| ZeroDivisionError
| OverflowError.

Inductive result (A : Type) :=
| Ok (a : A)
| Raise (e : exn).
Arguments Ok {A} a.
Arguments Raise {A} e.

(** A request sent to the database: collection, filter, projected fields. *)
Inductive db_call :=
| DbFind (collection : string) (q : query) (projection : list string)
| DbFindOne (collection : string) (q : query) (projection : list string).

Record world := mk_world {
  g_LOCATIONS : list string;            (* the module-level list LOCATIONS *)
  g_SCIENCE_RUNS : gmap string query;   (* the module-level dict SCIENCE_RUNS *)
  g_data_type : option string;          (* the global [data_type], bound by the
                                           script's entry point only *)
  db_log : list db_call;                (* requests issued, oldest first *)
  stdout : list string                  (* lines printed, oldest first *)
}.

Definition M (A : Type) : Type := world -> result A * world.

Definition ret {A} (a : A) : M A := fun w => (Ok a, w).

Definition raise {A} (e : exn) : M A := fun w => (Raise e, w).

Definition bind {A B} (k : A -> M B) (m : M A) : M B :=
  fun w => match m w with
           | (Ok a, w') => k a w'
           | (Raise e, w') => (Raise e, w')
           end.

#[global] Instance M_ret : MRet M := @ret.
#[global] Instance M_bind : MBind M := @bind.

(** [for x in l: acc = body(acc, x)] *)
Fixpoint foldM {A B} (body : A -> B -> M A) (l : list B) (acc : A) : M A :=
  match l with
  | [] => ret acc
  | x :: l' => acc' ← body acc x; foldM body l' acc'
  end.

(** [[f(x) for x in l]] *)
Fixpoint mapM {A B} (f : A -> M B) (l : list A) : M (list B) :=
  match l with
  | [] => ret []
  | x :: l' => y ← f x; ys ← mapM f l'; ret (y :: ys)
  end.

Definition set_LOCATIONS (l : list string) (w : world) : world :=
  mk_world l (g_SCIENCE_RUNS w) (g_data_type w) (db_log w) (stdout w).

Definition set_SCIENCE_RUNS (t : gmap string query) (w : world) : world :=
  mk_world (g_LOCATIONS w) t (g_data_type w) (db_log w) (stdout w).

Definition set_db_log (l : list db_call) (w : world) : world :=
  mk_world (g_LOCATIONS w) (g_SCIENCE_RUNS w) (g_data_type w) l (stdout w).

Definition set_stdout (l : list string) (w : world) : world :=
  mk_world (g_LOCATIONS w) (g_SCIENCE_RUNS w) (g_data_type w) (db_log w) l.

Definition print (line : string) : M unit :=
  fun w => (Ok tt, set_stdout (stdout w ++ [line]) w).

Definition log_call (c : db_call) : M unit :=
  fun w => (Ok tt, set_db_log (db_log w ++ [c]) w).

Definition read_LOCATIONS : M (list string) := fun w => (Ok (g_LOCATIONS w), w).

(** [LOCATIONS.append(x)], also through any other name of the same list. *)
Definition append_LOCATIONS (x : string) : M unit :=
  fun w => (Ok tt, set_LOCATIONS (g_LOCATIONS w ++ [x]) w).

(** [SCIENCE_RUNS[k]] *)
Definition getitem_SCIENCE_RUNS (k : string) : M query :=
  fun w => match g_SCIENCE_RUNS w !! k with
           | Some q => (Ok q, w)
           | None => (Raise (KeyError k), w)
           end.

(** A write through a reference to the dictionary stored at
    [SCIENCE_RUNS[k]]: the table holds the written dictionary afterwards. *)
Definition store_SCIENCE_RUNS (k : string) (q : query) : M unit :=
  fun w => (Ok tt, set_SCIENCE_RUNS (<[k := q]> (g_SCIENCE_RUNS w)) w).

(** Reading the global name [data_type]. *)
Definition global_data_type : M string :=
  fun w => match g_data_type w with
           | Some d => (Ok d, w)
           | None => (Raise (NameError "data_type"), w)
           end.

(** ** The module-level tables *)

Definition RECOMMENDED : pydict string :=
  [("xenonnt_v14", "2024.01.1");
   ("xenonnt_v13", "2023.11.1");
   ("xenonnt_v12", "2023.10.1");
   ("xenonnt_v11", "2023.07.1");
   ("xenonnt_v8", "2022.06.3")].

Definition ENV_VERSIONS : gmap string (pydict string) :=
  <["xenonnt_v14" := [("straxen_version", "2.2.0"); ("strax_version", "1.6.0");
                      ("cutax_version", "1.16.0")] ]>
  (<["xenonnt_v13" := [("straxen_version", "2.1.5"); ("strax_version", "1.5.4");
                       ("cutax_version", "1.15.5")] ]>
  (<["xenonnt_v12" := [("straxen_version", "2.1.4"); ("strax_version", "1.5.4");
                       ("cutax_version", "1.15.4")] ]>
  (<["xenonnt_v11" := [("straxen_version", "2.1.1"); ("strax_version", "1.5.2");
                       ("cutax_version", "1.15.1")] ]> ∅))).

Definition LOCATIONS : list string := ["UC_DALI_USERDISK"; "UC_MIDWAY_USERDISK"].

Definition SCIENCE_RUNS : gmap string query :=
  <["sr0" := [("$or", COr [[("tags.name", CEq (BStr "_sr0"))];
                           [("source", CEq (BStr "th-232"));
                            ("start", CLte (BDate (datetime_ymd 2022 8 1)))]])] ]>
  (<["sr0_ted" := [("tags.name", CEq (BStr "_sr0_ted"))] ]>
  (<["sr1" := [("tags.name", CEq (BStr "_sr1_preliminary"))] ]> ∅)).

(** The world right after the module is loaded; [data_type] names the value
    the script's entry point binds, if it ran. *)
Definition initial_world (data_type : option string) : world :=
  mk_world LOCATIONS SCIENCE_RUNS data_type [] [].

(** ** The program *)

(** Values of the cells of the report. *)
Inductive pyval :=
| PStr (s : string)
| PInt (n : Z).

Abbreviation row := (pydict pyval).

(** The value of a lineage hash when it counts as true: present and not
    empty. *)
Definition truthy_hash (h : option string) : option string :=
  match h with
  | Some s => if PyStr.truthy s then Some s else None
  | None => None
  end.

(** [{k.split('_')[0]: v for k, v in versions.items()}] *)
Definition normalize_versions (versions : pydict string) : pydict string :=
  fold_left (fun acc kv => dict_set acc (PyStr.before_underscore kv.1) kv.2)
            versions [].

(** [f"{n} ({n / total * 100:.1f}%)"] for two lengths. *)
Definition availability_cell (n total : nat) : result string :=
  match PyFloat.int_true_divide (Z.of_nat n) (Z.of_nat total) with
  | inl PyFloat.DivByZero => Raise ZeroDivisionError
  | inl PyFloat.DivOverflow => Raise OverflowError
  | inr x =>
      Ok (PyStr.str_of_N (N.of_nat n) ++ " ("
          ++ PyFloat.format_1f (PyFloat.mul x (PyFloat.of_Z 100)) ++ "%)")
  end.

Definition lift_result {A} (r : result A) : M A := fun w => (r, w).

Definition version_keys : list string :=
  ["straxen_version"; "strax_version"; "cutax_version"].

(** The query of [get_lineage_hash]: [{'name': context, 'tag': environment}]. *)
Definition primary_query (context environment : string) : query :=
  [("name", CEq (BStr context)); ("tag", CEq (BStr environment))].

(** The query of [get_lineae_hash_from_version]:
    [{**versions, 'name': context}]. *)
Definition version_query (context : string) (versions : pydict string) : query :=
  dict_set (dict_update [] ((fun kv => (kv.1, CEq (BStr kv.2))) <$> versions))
           "name" (CEq (BStr context)).

(** The query of [get_runs_from_db]; the location joins the element
    condition when it counts as true. *)
Definition runs_query (run_ids : list Z) (data_type lineage_hash location : string)
  : query :=
  let elem := [("type", CEq (BStr data_type));
               ("meta.lineage_hash", CEq (BStr lineage_hash))] in
  let elem := if PyStr.truthy location
              then dict_set elem "location" (CEq (BStr location)) else elem in
  [("number", CIn run_ids); ("data", CElemMatch elem)].

Section Program.

Variable db : database.

  (** The files of the machine: the decoded content of each regular file. *)
Variable fs : string -> option string.

Definition find (q : query) (projection : list string) : M (list run_doc) :=
    log_call (DbFind "runs" q projection);;
    ret (List.filter (fun d => matches (run_view d) q) (runs db)).

Definition find_one_contexts (q : query) (projection : list string)
    : M (option ctx_doc) :=
    log_call (DbFindOne "contexts" q projection);;
    ret (List.find (fun d => matches (ctx_view d) q) (contexts db)).

Definition get_runs_from_source (science_run source : string) : M (list Z) :=
    query ← getitem_SCIENCE_RUNS science_run;
    let query := dict_set query "source" (CEq (BStr source)) in
    store_SCIENCE_RUNS science_run query;;
    runlist ← find query ["number"];
    ret (number <$> runlist).

Definition get_lineage_hash (context environment data_type : string)
    : M (option string * pydict string) :=
    let query := primary_query context environment in
    let projection := ("hashes." ++ data_type) :: version_keys in
    res ← find_one_contexts query projection;
    match res with
    | None => ret (None, [])
    | Some res =>
        match hashes res with
        | None => raise (KeyError "hashes")
        | Some hs =>
            let lineage_hash := hs !! data_type in
            let versions :=
              (fun k => (k, default "UNKNOWN" (ctx_get res k))) <$> version_keys in
            ret (lineage_hash, versions)
        end
    end.

  (** The name [data_type] in this function is the module's global, not an
      argument. *)
Definition get_lineae_hash_from_version (context : string)
      (versions : pydict string) : M (option string) :=
    let query := version_query context versions in
    data_type ← global_data_type;
    let projection := ["hashes." ++ data_type] in
    res ← find_one_contexts query projection;
    match res with
    | None => ret None
    | Some res =>
        match hashes res with
        | None => raise (KeyError "hashes")
        | Some hs =>
            match hs !! data_type with
            | Some h => ret (Some h)
            | None => raise (KeyError data_type)
            end
        end
    end.

Definition read_run_ids_from_file (filename : string) : M (list Z) :=
    match fs filename with
    | None => print ("File " ++ filename ++ " not found");; ret []
    | Some content =>
        let run_ids := PyStr.splitlines content in
        mapM (fun run_id =>
                match PyStr.int run_id with
                | Some n => ret n
                | None => raise (ValueError "invalid literal for int()")
                end)
             (List.filter PyStr.isdigit run_ids)
    end.

Definition get_runs_from_db (run_ids : list Z) (data_type lineage_hash : string)
      (location : string) : M (list Z) :=
    let query := runs_query run_ids data_type lineage_hash location in
    log_call (DbFind "runs" query ["number"]);;
    ret (number <$> List.filter (fun d => matches (run_view d) query) (runs db)).

  (** One round of the loop over the locations. *)
Definition check_location (data_type : string) (run_ids : list Z)
      (lineage_hash : string) (doc : row) (location : string) : M row :=
    runs_location ← get_runs_from_db run_ids data_type lineage_hash location;
    cell ← lift_result (availability_cell (length runs_location) (length run_ids));
    ret (dict_set doc location (PStr cell)).

  (** One round of the loop over the recommended contexts, first part: the
    lineage hash and the versions, from the primary lookup or else from the
    lookup by version. *)
Definition resolve_lineage (data_type : string) (item : string * string)
    : M (option string * pydict string) :=
    let context := item.1 in
    let env_version := item.2 in
    found ← get_lineage_hash context env_version data_type;
    match truthy_hash found.1 with
    | Some _ => ret found
    | None =>
        match ENV_VERSIONS !! context with
        | None => raise (KeyError context)
        | Some versions =>
            lineage_hash ← get_lineae_hash_from_version context versions;
            ret (lineage_hash, versions)
        end
    end.

(** The dictionary literal that starts a row. *)
Definition new_doc (context env_version : string) (run_ids : list Z)
    (lineage_hash : string) (versions : pydict string) : row :=
    dict_update [("Context", PStr context);
                 ("Environment", PStr env_version);
                 ("Total Checked", PInt (Z.of_nat (length run_ids)));
                 ("LineageHash", PStr lineage_hash)]
                ((fun kv => (kv.1, PStr kv.2)) <$> versions).

(** Second part of the round: the locations and the row. *)
Definition report_context (data_type : string) (run_ids : list Z)
    (extra_location : option string) (docs : list row)
    (item : string * string) (found : option string * pydict string)
    : M (list row) :=
    let context := item.1 in
    let env_version := item.2 in
    match truthy_hash extra_location with
    | Some extra => append_LOCATIONS extra
    | None => ret tt
    end;;
    locations ← read_LOCATIONS;
    let versions := normalize_versions found.2 in
    match truthy_hash found.1 with
    | Some lineage_hash =>
        let doc := new_doc context env_version run_ids lineage_hash versions in
        doc ← foldM (check_location data_type run_ids lineage_hash) locations doc;
        ret (docs ++ [doc])%list
    | None =>
        print ("Lineage hash not found for " ++ context ++ " and " ++ env_version);;
        ret docs
    end.

Definition check_context (data_type : string) (run_ids : list Z)
    (extra_location : option string) (docs : list row)
    (item : string * string) : M (list row) :=
    found ← resolve_lineage data_type item;
    report_context data_type run_ids extra_location docs item found.

Definition check_runs_available (data_type : string) (run_ids : list Z)
      (extra_location : option string) : M (list row) :=
    match run_ids with
    | [] => raise (ValueError "No run_ids found")
    | _ => foldM (check_context data_type run_ids extra_location) RECOMMENDED []
    end.

  (** A call of one of the module's functions, and a history of calls. *)
Inductive call :=
  | CallSource (science_run source : string)
  | CallFile (filename : string)
  | CallCheck (data_type : string) (run_ids : list Z) (extra_location : option string).

Definition exec_call (c : call) (w : world) : world :=
    match c with
    | CallSource science_run source => (get_runs_from_source science_run source w).2
    | CallFile filename => (read_run_ids_from_file filename w).2
    | CallCheck data_type run_ids extra =>
        (check_runs_available data_type run_ids extra w).2
    end.

Definition exec_calls (cs : list call) (w : world) : world :=
    fold_left (fun w c => exec_call c w) cs w.

End Program.

(** ** The script *)

(** The parsed command line: the positional data type, the three selectors
    of the exclusive group, the science runs and the extra location. *)
Record args := mk_args {
  a_data_type : string;
  a_source : option (list string);
  a_filename : option string;
  a_run_id : option string;
  a_science_run : list string;
  a_extra_location : option string
}.

(** The assignment [data_type = args.data_type] at module level. *)
Definition bind_data_type (data_type : string) : M unit :=
  fun w => (Ok tt, mk_world (g_LOCATIONS w) (g_SCIENCE_RUNS w) (Some data_type)
                            (db_log w) (stdout w)).

(** ["-" * 80] *)
Definition dashes : string := string_of_list_ascii (repeat "-"%char 80).

Section Script.

Variable db : database.
Variable fs : string -> option string.

(** [str.upper], used for the headers only. *)
Variable upper : string -> string.

(** [pd.DataFrame(docs).to_string(index=False)], the rendering of the table. *)
Variable to_string : list row -> string.

(** The body under [if __name__ == "__main__"], after [parse_args]. *)
Definition main (a : args) : M unit :=
  let data_type := a_data_type a in
  bind_data_type data_type;;
  let extra_location := a_extra_location a in
  print (LF ++ " " ++ dashes);;
  match truthy_hash (a_filename a) with
  | Some filename =>
      print (" Checking for " ++ upper data_type ++ " from file: " ++ filename ++ LF);;
      run_ids ← read_run_ids_from_file fs filename;
      df ← check_runs_available db data_type run_ids extra_location;
      print (to_string df ++ " " ++ LF)
  | None =>
      match a_source a with
      | Some (s :: ss) =>
          foldM (fun _ science_run =>
                   foldM (fun _ source =>
                            print (" Checking for " ++ upper data_type ++ " in "
                                   ++ upper science_run ++ " with source: "
                                   ++ upper source ++ LF);;
                            run_ids ← get_runs_from_source db science_run source;
                            df ← check_runs_available db data_type run_ids
                                                      extra_location;
                            print (to_string df ++ " " ++ LF))
                         (s :: ss) tt)
                (a_science_run a) tt
      | _ =>
          match truthy_hash (a_run_id a) with
          | Some run_id =>
              print (" Checking for " ++ upper data_type ++ " for run_id: "
                     ++ run_id ++ LF);;
              run_ids ← match PyStr.int run_id with
                        | Some n => ret [n]
                        | None => raise (ValueError "invalid literal for int()")
                        end;
              df ← check_runs_available db data_type run_ids extra_location;
              print (to_string df ++ " " ++ LF)
          | None => raise (ValueError "No source, filename, or run_id provided")
          end
      end
  end;;
  print (dashes ++ " " ++ LF).

End Script.

(** ** Notions used to state the properties *)

(** The requests a computation issues when started in [w]. *)
Definition issued {A} (m : M A) (w : world) : list db_call :=
  drop (length (db_log w)) (db_log (m w).2).

(** A science-run predicate, as it is in the table once a call has written a
    source into it ([Some s]) or before any did ([None]). *)
Definition with_source (o : option string) (pred : query) : query :=
  match o with
  | Some s => dict_set pred "source" (CEq (BStr s))
  | None => pred
  end.

(** The states of the mutable table [SCIENCE_RUNS] in which every entry is
    the one of the module text, up to a written source. *)
Definition science_runs_ok (t : gmap string query) : Prop :=
  ∀ sr, ∃ o, t !! sr = with_source o <$> (SCIENCE_RUNS !! sr).

(** The runs the predicate of science run sr0 is meant to select: tagged
    [_sr0], or thorium runs started on or before 1 August 2022. *)
Definition sr0_selects (r : run_doc) : bool :=
  existsb (String.eqb "_sr0") (tags r)
  || (String.eqb (source r) "th-232"
      && datetime_leb (start r) (datetime_ymd 2022 8 1)).

(** The run id a line of digits denotes, by the standard library's reading of
    unsigned decimal numerals: defined on the non-empty strings made of the
    characters 0 to 9 only. *)
Definition run_id_of_line (line : string) : option Z :=
  (fun u => Z.of_N (N.of_uint u)) <$> NilZero.uint_of_string line.

(** The outcome of the primary lookup of a lineage hash.  It depends on the
    database only (lemma [get_lineage_hash_run]), so it is read off a run in
    the freshly loaded module. *)
Definition primary_lookup (db : database) (context environment data_type : string)
  : result (option string * pydict string) :=
  (get_lineage_hash db context environment data_type (initial_world None)).1.

(** The outcome of the lookup by version; it depends on the database and on
    the global [data_type]. *)
Definition version_lookup (db : database) (global : option string)
    (context : string) (versions : pydict string) : result (option string) :=
  (get_lineae_hash_from_version db context versions (initial_world global)).1.

(** The projection of the primary lookup. *)
Definition primary_projection (data_type : string) : list string :=
  ("hashes." ++ data_type) :: version_keys.

(** Requests addressed to the contexts collection. *)
Definition to_contexts (c : db_call) : bool :=
  match c with
  | DbFind coll _ _ | DbFindOne coll _ _ => String.eqb coll "contexts"
  end.

(** A run holds data of the given type and lineage hash at the location. *)
Definition has_data (data_type lineage_hash location : string) (r : run_doc) : bool :=
  existsb (fun e => String.eqb (de_type e) data_type
                    && String.eqb (de_lineage_hash e) lineage_hash
                    && String.eqb (de_location e) location)
          (data r).

(** The runs of the collection whose number is among the input run ids and
    which hold the data at the location. *)
Definition matched_runs (db : database) (run_ids : list Z)
    (data_type lineage_hash location : string) : list run_doc :=
  List.filter (fun r => existsb (Z.eqb (number r)) run_ids
                        && has_data data_type lineage_hash location r)
              (runs db).

(** The world once the extra location, if it counts as true, is appended to
    [LOCATIONS]. *)
Definition append_extra (extra_location : option string) (w : world) : world :=
  match truthy_hash extra_location with
  | Some x => set_LOCATIONS (g_LOCATIONS w ++ [x]) w
  | None => w
  end.

(** The cell [check_location] computes for a location. *)
Definition location_cell (db : database) (run_ids : list Z)
    (data_type lineage_hash location : string) : result string :=
  availability_cell
    (length (List.filter
               (fun d => matches (run_view d)
                           (runs_query run_ids data_type lineage_hash location))
               (runs db)))
    (length run_ids).

(** What one round of the loop over the contexts adds to [LOCATIONS]. *)
Definition extra_list (extra_location : option string) : list string :=
  match truthy_hash extra_location with
  | Some x => [x]
  | None => []
  end.

(** The lineage hash a round works with for a context, if it resolves one that
    counts as true; [global] is the binding of the global [data_type]. *)
Definition resolved_hash (db : database) (global : option string)
    (data_type : string) (item : string * string) : option string :=
  match (resolve_lineage db data_type item (initial_world global)).1 with
  | Ok found => truthy_hash found.1
  | Raise _ => None
  end.

(** The names of the version columns of a row. *)
Definition version_columns : list string := ["straxen"; "strax"; "cutax"].

(** The log grew by requests to collections other than contexts. *)
Definition only_runs_requests : relation world :=
  fun w w' => ∃ l, db_log w' = (db_log w ++ l)%list
                   ∧ Forall (fun c => to_contexts c = false) l.

(** The percentage of a cell, in tenths, when the float it is printed from
    is a non-negative finite number. *)
Definition percent_tenths (n total : nat) : option Z :=
  match PyFloat.int_true_divide (Z.of_nat n) (Z.of_nat total) with
  | inr x =>
      match PyFloat.mul x (PyFloat.of_Z 100) with
      | S754_zero false => Some 0
      | S754_finite false m e => Some (PyFloat.round_tenths m e)
      | _ => None
      end
  | inl _ => None
  end.

(** The percentage in tenths is defined and is an integer nearest to
    [1000 * n / total]. *)
Definition nearest_tenth (n total : nat) : bool :=
  match percent_tenths n total with
  | Some t =>
      Z.abs (t * Z.of_nat total - 1000 * Z.of_nat n) * 2 <=? Z.of_nat total
  | None => false
  end.

(** An input run id is available: some run of the collection has that number
    and holds the data at the location. *)
Definition id_available (db : database) (data_type lineage_hash location : string)
    (id : Z) : bool :=
  existsb (fun r => (number r =? id) && has_data data_type lineage_hash location r)
          (runs db).

Definition succeeded {A} (r : result A) : bool :=
  match r with Ok _ => true | Raise _ => false end.

(** ** Example data *)

(** Three runs; runs 1 and 2 hold peaklets of lineage [abc] on
    UC_DALI_USERDISK, run 3 holds peaklets of another lineage.  The contexts
    collection knows xenonnt_v14 and xenonnt_v8 under their recommended
    environments and xenonnt_v13 under another environment, with the
    versions of the fallback table. *)
Definition example_db : database :=
  mk_database
    [mk_run_doc 1 ["_sr0"] "none" (mk_datetime 2021 6 1 12 0 0 0)
       [mk_data_entry "peaklets" "UC_DALI_USERDISK" "abc";
        mk_data_entry "peaklets" "UC_MIDWAY_USERDISK" "abc"];
     mk_run_doc 2 [] "th-232" (mk_datetime 2022 7 31 23 59 59 0)
       [mk_data_entry "peaklets" "UC_DALI_USERDISK" "abc";
        mk_data_entry "peaklets" "UC_DALI_USERDISK" "def"];
     mk_run_doc 3 ["_sr0"] "th-232" (mk_datetime 2022 9 1 0 0 0 0)
       [mk_data_entry "peaklets" "UC_DALI_USERDISK" "zzz"];
     mk_run_doc 4 [] "th-232" (mk_datetime 2022 8 1 0 0 0 1) []]
    [mk_ctx_doc "xenonnt_v14" "2024.01.1" (Some {["peaklets" := "abc"]})
       (Some "2.2.0") (Some "1.6.0") (Some "1.16.0");
     mk_ctx_doc "xenonnt_v13" "2023.09.0" (Some {["peaklets" := "def"]})
       (Some "2.1.5") (Some "1.5.4") (Some "1.15.5");
     mk_ctx_doc "xenonnt_v8" "2022.06.3" (Some {["peaklets" := "old"]})
       (Some "1.8.3") None (Some "1.9.0")].

(** A database whose only context document matches xenonnt_v13 by its
    versions and has a hash for another data type only. *)
Definition partial_db : database :=
  mk_database []
    [mk_ctx_doc "xenonnt_v13" "2023.09.0" (Some {["event_info" := "xyz"]})
       (Some "2.1.5") (Some "1.5.4") (Some "1.15.5")].

(** A database whose contexts collection is empty. *)
Definition empty_db : database := mk_database [] [].

(** One file, [runs.txt], with digit lines, a signed line, a word, an empty
    line and a repeated id. *)
Definition example_fs (path : string) : option string :=
  if String.eqb path "runs.txt"
  then Some ("12" ++ LF ++ "-5" ++ LF ++ "abc" ++ CR ++ LF ++ LF ++ "12" ++ LF
             ++ "007" ++ LF)
  else None.

(** The world of the script started on the data type peaklets. *)
Definition script_world : world := initial_world (Some "peaklets").

(** A run holds data of the given type and lineage hash at the location, or
    at any location when the location does not count as true. *)
Definition has_data_at (data_type lineage_hash location : string) (r : run_doc)
  : bool :=
  existsb (fun e => String.eqb (de_type e) data_type
                    && String.eqb (de_lineage_hash e) lineage_hash
                    && (negb (PyStr.truthy location)
                        || String.eqb (de_location e) location))
          (data r).

(** A run carries the tag. *)
Definition has_tag (t : string) (r : run_doc) : bool :=
  existsb (String.eqb t) (tags r).

(** A row is the row of a recommended context: the context's lineage hash is
    resolved and the first four columns show the context, its environment,
    the number of run ids and the hash. *)
Definition row_of_context (db : database) (g : option string) (dt : string)
    (ids : list Z) (item : string * string) (r : row) : Prop :=
  ∃ h, resolved_hash db g dt item = Some h
       ∧ dict_get r "Context" = Some (PStr item.1)
       ∧ dict_get r "Environment" = Some (PStr item.2)
       ∧ dict_get r "Total Checked" = Some (PInt (Z.of_nat (length ids)))
       ∧ dict_get r "LineageHash" = Some (PStr h).

(** The columns every row starts with. *)
Definition fixed_columns : list string :=
  ["Context"; "Environment"; "Total Checked"; "LineageHash"].

(** A computation only adds to the world: locations at the end of
    [LOCATIONS], requests at the end of the log and lines at the end of the
    output; the table of science runs and the global [data_type] stay as
    they are. *)
Definition only_appends : relation world :=
  fun w w' =>
    (∃ l, g_LOCATIONS w' = (g_LOCATIONS w ++ l)%list)
    ∧ (∃ l, db_log w' = (db_log w ++ l)%list)
    ∧ (∃ l, stdout w' = (stdout w ++ l)%list)
    ∧ g_SCIENCE_RUNS w' = g_SCIENCE_RUNS w
    ∧ g_data_type w' = g_data_type w.

(** * Properties *)

(** ** Dictionaries *)

Section Dict.
Context {V : Type}.
Implicit Types (d : pydict V) (k : string) (v : V).

Lemma dict_get_set_eq d k v : dict_get (dict_set d k v) k = Some v.
Proof.
    induction d as [|[k' v'] d IH]; simpl.
    - by rewrite String.eqb_refl.
    - destruct (String.eqb k' k) eqn:E; simpl; rewrite E; auto.
Qed.

Lemma dict_get_set_ne d k k' v :
    k ≠ k' → dict_get (dict_set d k v) k' = dict_get d k'.
Proof.
    intros Hne. induction d as [|[k0 v0] d IH]; simpl.
    - destruct (String.eqb_spec k k'); congruence.
    - destruct (String.eqb_spec k0 k) as [->|]; simpl.
      + destruct (String.eqb_spec k k'); congruence.
      + by rewrite IH.
Qed.

  (** Writing a key twice leaves what the second write alone would leave. *)
Lemma dict_set_set d k v v' : dict_set (dict_set d k v) k v' = dict_set d k v'.
Proof.
    induction d as [|[k0 v0] d IH]; simpl.
    - by rewrite String.eqb_refl.
    - destruct (String.eqb k0 k) eqn:E; simpl; rewrite E; congruence.
Qed.

Lemma dict_get_update_notin d (e : pydict V) k :
    k ∉ e.*1 → dict_get (dict_update d e) k = dict_get d k.
Proof.
    unfold dict_update. revert d.
    induction e as [|[k0 v0] e IH]; intros d Hk; simpl; [done|].
    rewrite IH.
    - apply dict_get_set_ne. intros ->. apply Hk. simpl. left.
    - intros Hin. apply Hk. simpl. by right.
Qed.
End Dict.

(** ** The monad *)

Lemma bind_unfold {A B} (m : M A) (k : A → M B) w :
  (m ≫= k) w = match m w with
               | (Ok a, w') => k a w'
               | (Raise e, w') => (Raise e, w')
               end.
Proof. reflexivity. Qed.

Lemma bind_ok {A B} (m : M A) (k : A → M B) w a w' :
  m w = (Ok a, w') → (m ≫= k) w = k a w'.
Proof. intros H. by rewrite bind_unfold, H. Qed.

Lemma bind_raise {A B} (m : M A) (k : A → M B) w e w' :
  m w = (Raise e, w') → (m ≫= k) w = (Raise e, w').
Proof. intros H. by rewrite bind_unfold, H. Qed.

Lemma log_call_run c w : log_call c w = (Ok tt, set_db_log (db_log w ++ [c]) w).
Proof. reflexivity. Qed.

Lemma ret_run {A} (a : A) w : ret a w = (Ok a, w).
Proof. reflexivity. Qed.

Lemma mret_run {A} (a : A) w : (mret a : M A) w = (Ok a, w).
Proof. reflexivity. Qed.

Ltac run_M :=
  repeat first [rewrite bind_unfold | rewrite log_call_run | rewrite ret_run
               | rewrite mret_run | progress cbv iota].

Lemma foldM_app {A B} (body : A → B → M A) (l1 l2 : list B) acc :
  ∀ w, foldM body (l1 ++ l2) acc w = (foldM body l1 acc ≫= foldM body l2) w.
Proof.
  revert acc. induction l1 as [|x l1 IH]; intros acc w; simpl.
  - reflexivity.
  - rewrite !bind_unfold. destruct (body acc x w) as [[a|e] w1]; [|done].
    rewrite IH. by rewrite bind_unfold.
Qed.

(** An invariant of the loop body that holds at the start holds for every
    result the loop returns. *)
Lemma foldM_invariant {A B} (body : A → B → M A) (I : A → world → Prop) l :
  (∀ a x w a' w', x ∈ l → I a w → body a x w = (Ok a', w') → I a' w') →
  ∀ acc w r w', I acc w → foldM body l acc w = (Ok r, w') → I r w'.
Proof.
  induction l as [|x l IH]; intros Hstep acc w r w' HI Hrun; simpl in Hrun.
  - unfold mret, M_ret, ret in Hrun. by simplify_eq.
  - rewrite bind_unfold in Hrun.
    destruct (body acc x w) as [[a|e] w1] eqn:E; [|done].
    eapply IH; [|eapply Hstep; [left|done..]|done].
    intros. eapply Hstep; [by right|done..].
Qed.

(** ** What a computation respects *)

Section Respects.
Context (R : relation world) `{!PreOrder R}.

(** Every world [m] can end in, by returning or by raising, is related to
    the world it started in. *)
Definition respects {A} (m : M A) : Prop := ∀ w, R w (m w).2.

Lemma respects_ret {A} (a : A) : respects (mret a).
Proof. by intros w. Qed.

Lemma respects_raise {A} e : respects (@raise A e).
Proof. by intros w. Qed.

Lemma respects_lift {A} (r : result A) : respects (lift_result r).
Proof. by intros w. Qed.

Lemma respects_bind {A B} (m : M A) (k : A → M B) :
  respects m → (∀ a, respects (k a)) → respects (m ≫= k).
Proof.
  intros Hm Hk w. rewrite bind_unfold. specialize (Hm w).
  destruct (m w) as [[a|e] w1]; simpl in *; [|done].
  by etrans; [|apply Hk].
Qed.

Lemma respects_foldM {A B} (body : A → B → M A) l :
  (∀ a x, respects (body a x)) → ∀ acc, respects (foldM body l acc).
Proof.
  intros Hb. induction l as [|x l IH]; intros acc; simpl.
  - apply respects_ret.
  - apply respects_bind; auto.
Qed.

Lemma respects_mapM {A B} (g : A → M B) l :
  (∀ a, respects (g a)) → respects (mapM g l).
Proof.
  intros Hg. induction l as [|x l IH]; simpl.
  - apply respects_ret.
  - apply respects_bind; [done|]. intros y. apply respects_bind; [done|].
    intros ys. apply respects_ret.
Qed.

Lemma respects_global_data_type : respects global_data_type.
Proof. intros w. unfold global_data_type. by destruct (g_data_type w). Qed.

Lemma respects_read_LOCATIONS : respects read_LOCATIONS.
Proof. by intros w. Qed.

(** The steps of the program that change the world. *)
Variable db : database.
Variable fs : string → option string.
Hypothesis R_runs : ∀ q p w, R w (set_db_log (db_log w ++ [DbFind "runs" q p]) w).
Hypothesis R_contexts :
  ∀ q p w, R w (set_db_log (db_log w ++ [DbFindOne "contexts" q p]) w).
Hypothesis R_print : ∀ line w, R w (set_stdout (stdout w ++ [line]) w).
Hypothesis R_append :
  ∀ x w, x ≠ "" → R w (set_LOCATIONS (g_LOCATIONS w ++ [x]) w).

Ltac step :=
  match goal with
  | |- respects (mret _) => apply respects_ret
  | |- respects (ret _) => apply respects_ret
  | |- respects (raise _) => apply respects_raise
  | |- respects (lift_result _) => apply respects_lift
  | |- respects global_data_type => apply respects_global_data_type
  | |- respects read_LOCATIONS => apply respects_read_LOCATIONS
  | |- respects (log_call (DbFind "runs" _ _)) => intros ?; apply R_runs
  | |- respects (log_call (DbFindOne "contexts" _ _)) => intros ?; apply R_contexts
  | |- respects (print _) => intros ?; apply R_print
  | |- respects (_ ≫= _) => apply respects_bind; [|intros ?]
  | |- respects (foldM _ _ _) => apply respects_foldM; intros ? ?
  | |- respects (mapM _ _) => apply respects_mapM; intros ?
  | |- respects (match ?x with _ => _ end) => destruct x eqn:?
  end.

Lemma find_one_contexts_respects q p : respects (find_one_contexts db q p).
Proof. unfold find_one_contexts. repeat step. Qed.

Lemma get_lineage_hash_respects c env dt : respects (get_lineage_hash db c env dt).
Proof.
  unfold get_lineage_hash. step; [apply find_one_contexts_respects|repeat step].
Qed.

Lemma get_lineae_hash_from_version_respects c vs :
  respects (get_lineae_hash_from_version db c vs).
Proof.
  unfold get_lineae_hash_from_version. step; [step|].
  step; [apply find_one_contexts_respects|repeat step].
Qed.

Lemma resolve_lineage_respects dt item : respects (resolve_lineage db dt item).
Proof.
  unfold resolve_lineage. step; [apply get_lineage_hash_respects|].
  step; [repeat step|]. step; [|repeat step].
  step; [apply get_lineae_hash_from_version_respects|repeat step].
Qed.

Lemma check_location_respects dt ids h doc loc :
  respects (check_location db dt ids h doc loc).
Proof. unfold check_location, get_runs_from_db. repeat step. Qed.

Lemma truthy_hash_nonempty o x : truthy_hash o = Some x → x ≠ "".
Proof.
  destruct o as [y|]; [|done]. simpl. destruct y; [done|].
  by intros [= <-].
Qed.

Lemma report_context_respects dt ids extra docs item found :
  respects (report_context db dt ids extra docs item found).
Proof.
  unfold report_context. step.
  - destruct (truthy_hash extra) as [x|] eqn:Hx; [|step].
    intros w. apply R_append. by eapply truthy_hash_nonempty.
  - step; [step|]. step; [|repeat step].
    step; [|step]. apply respects_foldM. intros. apply check_location_respects.
Qed.

Lemma check_context_respects dt ids extra docs item :
  respects (check_context db dt ids extra docs item).
Proof.
  unfold check_context. step;
    [apply resolve_lineage_respects|apply report_context_respects].
Qed.

Lemma check_runs_available_respects dt ids extra :
  respects (check_runs_available db dt ids extra).
Proof.
  unfold check_runs_available. destruct ids; [step|].
  apply respects_foldM. intros. apply check_context_respects.
Qed.

Lemma read_run_ids_from_file_respects filename :
  respects (read_run_ids_from_file fs filename).
Proof. unfold read_run_ids_from_file. repeat step. Qed.

End Respects.

(** Leaving a component of the world as it is. *)
Definition unchanged {X} (f : world → X) : relation world := λ w w', f w' = f w.

#[global] Instance unchanged_preorder {X} (f : world → X) : PreOrder (unchanged f).
Proof. split; [by intros w|]. intros w1 w2 w3 H1 H2. unfold unchanged in *. congruence. Qed.

(** ** Queries on run documents *)

(** Adding a key the query does not have adds its condition to the
    conjunction. *)
Lemma matches_dict_set_fresh v (q : query) k c :
  dict_get q k = None →
  matches v (dict_set q k c) = matches v q && cond_holds v k c.
Proof.
  induction q as [|[k0 c0] q IH]; simpl; intros Hk.
  - by rewrite andb_true_r.
  - destruct (String.eqb k0 k); [done|]. simpl. rewrite IH by done.
    by rewrite andb_assoc.
Qed.

Lemma run_view_number r : v_field (run_view r) "number" = [BInt (number r)].
Proof. reflexivity. Qed.

Lemma run_view_tags r : v_field (run_view r) "tags.name" = BStr <$> tags r.
Proof. reflexivity. Qed.

Lemma run_view_source r : v_field (run_view r) "source" = [BStr (source r)].
Proof. reflexivity. Qed.

Lemma run_view_start r : v_field (run_view r) "start" = [BDate (start r)].
Proof. reflexivity. Qed.

Lemma run_view_data r : v_array (run_view r) "data" = entry_view <$> data r.
Proof. reflexivity. Qed.

Lemma cond_holds_source r s :
  cond_holds (run_view r) "source" (CEq (BStr s)) = String.eqb (source r) s.
Proof.
  cbn [cond_holds leaf_holds]. rewrite run_view_source. cbn [existsb bval_eqb].
  rewrite orb_false_r. apply String.eqb_sym.
Qed.

Lemma existsb_tags t ts :
  existsb (bval_eqb (BStr t)) (BStr <$> ts) = existsb (String.eqb t) ts.
Proof. induction ts as [|x ts IH]; [done|]. simpl. f_equal. exact IH. Qed.

Ltac table_cases H :=
  repeat (rewrite lookup_insert in H; case_decide; simplify_eq);
  try (rewrite lookup_empty in H; discriminate).

Lemma SCIENCE_RUNS_no_source sr pred :
  SCIENCE_RUNS !! sr = Some pred → dict_get pred "source" = None.
Proof. unfold SCIENCE_RUNS. intros H. table_cases H; reflexivity. Qed.

Lemma sr0_predicate pred r :
  SCIENCE_RUNS !! "sr0" = Some pred → matches (run_view r) pred = sr0_selects r.
Proof.
  unfold SCIENCE_RUNS. intros H. table_cases H.
  unfold sr0_selects, matches.
  cbn [existsb forallb cond_holds leaf_holds].
  rewrite run_view_tags, run_view_source, run_view_start, existsb_tags.
  cbn [existsb bval_eqb bval_leb].
  rewrite !andb_true_r, !orb_false_r. by rewrite (String.eqb_sym "th-232").
Qed.

(** ** The table of science runs across calls *)

Lemma with_source_set o pred s :
  dict_set (with_source o pred) "source" (CEq (BStr s)) = with_source (Some s) pred.
Proof. destruct o; simpl; [apply dict_set_set|done]. Qed.

Lemma science_runs_ok_init : science_runs_ok SCIENCE_RUNS.
Proof. intros sr. exists None. by destruct (SCIENCE_RUNS !! sr). Qed.

Section Calls.
Variable db : database.
Variable fs : string → option string.

(** What [get_runs_from_source] does in a world whose table holds [q0] for
    the science run. *)
Lemma get_runs_from_source_run sr src w q0 :
  g_SCIENCE_RUNS w !! sr = Some q0 →
  let q := dict_set q0 "source" (CEq (BStr src)) in
  get_runs_from_source db sr src w =
    (Ok (number <$> List.filter (λ r, matches (run_view r) q) (runs db)),
     set_db_log (db_log w ++ [DbFind "runs" q ["number"]])
       (set_SCIENCE_RUNS (<[sr := q]> (g_SCIENCE_RUNS w)) w)).
Proof.
  intros Hq q. unfold get_runs_from_source.
  rewrite bind_unfold. unfold getitem_SCIENCE_RUNS at 1. cbv beta.
  rewrite Hq. reflexivity.
Qed.

Lemma get_runs_from_source_unknown sr src w :
  g_SCIENCE_RUNS w !! sr = None →
  get_runs_from_source db sr src w = (Raise (KeyError sr), w).
Proof.
  intros Hq. unfold get_runs_from_source.
  rewrite bind_unfold. unfold getitem_SCIENCE_RUNS at 1. cbv beta.
  by rewrite Hq.
Qed.

Lemma get_runs_from_source_ok sr src w :
  science_runs_ok (g_SCIENCE_RUNS w) →
  science_runs_ok (g_SCIENCE_RUNS (get_runs_from_source db sr src w).2).
Proof.
  intros Hok. destruct (g_SCIENCE_RUNS w !! sr) as [q0|] eqn:Hq.
  - rewrite (get_runs_from_source_run _ _ _ _ Hq). simpl.
    intros sr'. destruct (decide (sr = sr')) as [<-|Hne].
    + rewrite lookup_insert_eq. destruct (Hok sr) as [o Ho].
      rewrite Hq in Ho. destruct (SCIENCE_RUNS !! sr) as [pred|]; [|done].
      simpl in Ho. simplify_eq. exists (Some src). simpl.
      by rewrite with_source_set.
    + rewrite lookup_insert_ne by done. apply Hok.
  - by rewrite (get_runs_from_source_unknown _ _ _ Hq).
Qed.

Lemma exec_call_ok c w :
  science_runs_ok (g_SCIENCE_RUNS w) →
  science_runs_ok (g_SCIENCE_RUNS (exec_call db fs c w)).
Proof.
  intros Hok. destruct c as [sr src|filename|dt ids extra]; simpl.
  - by apply get_runs_from_source_ok.
  - by rewrite (read_run_ids_from_file_respects (unchanged g_SCIENCE_RUNS) fs).
  - by rewrite (check_runs_available_respects (unchanged g_SCIENCE_RUNS) db).
Qed.

Lemma exec_calls_ok cs w :
  science_runs_ok (g_SCIENCE_RUNS w) →
  science_runs_ok (g_SCIENCE_RUNS (exec_calls db fs cs w)).
Proof.
  revert w. induction cs as [|c cs IH]; intros w Hok; simpl; [done|].
  apply IH. by apply exec_call_ok.
Qed.

End Calls.

(** In a world whose table is in order, the call sends the predicate of the
    module text joined with the source, whatever was written before. *)
Lemma get_runs_from_source_pristine db sr pred src w :
  science_runs_ok (g_SCIENCE_RUNS w) →
  SCIENCE_RUNS !! sr = Some pred →
  let q := dict_set pred "source" (CEq (BStr src)) in
  get_runs_from_source db sr src w =
    (Ok (number <$> List.filter (λ r, matches (run_view r) q) (runs db)),
     set_db_log (db_log w ++ [DbFind "runs" q ["number"]])
       (set_SCIENCE_RUNS (<[sr := q]> (g_SCIENCE_RUNS w)) w)).
Proof.
  intros Hok Hpred q. destruct (Hok sr) as [o Ho]. rewrite Hpred in Ho.
  simpl in Ho. rewrite (get_runs_from_source_run _ _ _ _ _ Ho).
  by rewrite with_source_set.
Qed.

(** ** Input resolution from a science run and a source *)

(** C6: for a science run of the fixed table and any source, in any world
    reached from the freshly loaded module by earlier calls,
    [get_runs_from_source] sends one request to the runs collection: the
    table's predicate joined with an exact match on the top-level [source],
    projecting the run number only.  It returns the numbers of the runs that
    satisfy both, in the collection's order.  The predicate of sr0 selects
    the runs tagged [_sr0] or the th-232 runs started on or before
    2022-08-01. *)
Theorem C6_get_runs_from_source db db' fs cs g sr pred src :
  SCIENCE_RUNS !! sr = Some pred →
  let w := exec_calls db' fs cs (initial_world g) in
  let q := dict_set pred "source" (CEq (BStr src)) in
  get_runs_from_source db sr src w =
    (Ok (number <$>
           List.filter (λ r, matches (run_view r) pred && String.eqb (source r) src)
                       (runs db)),
     set_db_log (db_log w ++ [DbFind "runs" q ["number"]])
       (set_SCIENCE_RUNS (<[sr := q]> (g_SCIENCE_RUNS w)) w))
  ∧ (sr = "sr0" → ∀ r, matches (run_view r) pred = sr0_selects r).
Proof.
  intros Hpred w q. split.
  - rewrite (get_runs_from_source_pristine db sr pred src w); [|
      by apply exec_calls_ok, science_runs_ok_init|done].
    do 3 f_equal. apply filter_ext. intros r. unfold q.
    rewrite matches_dict_set_fresh by by eapply SCIENCE_RUNS_no_source.
    by rewrite cond_holds_source.
  - intros -> r. by apply sr0_predicate.
Qed.

(** C10: the result of [get_runs_from_source] and the request it sends do
    not depend on the calls made before it: after any history of calls of
    the module's functions they are what they are in the freshly loaded
    module. *)
Theorem C10_get_runs_from_source_history db db' fs cs g sr src :
  let w0 := initial_world g in
  let w := exec_calls db' fs cs w0 in
  (get_runs_from_source db sr src w).1 = (get_runs_from_source db sr src w0).1
  ∧ issued (get_runs_from_source db sr src) w
    = issued (get_runs_from_source db sr src) w0.
Proof.
  intros w0 w.
  assert (Hw : science_runs_ok (g_SCIENCE_RUNS w))
    by apply exec_calls_ok, science_runs_ok_init.
  assert (Hw0 : science_runs_ok (g_SCIENCE_RUNS w0)) by apply science_runs_ok_init.
  destruct (SCIENCE_RUNS !! sr) as [pred|] eqn:Hpred.
  - unfold issued.
    rewrite !(get_runs_from_source_pristine db sr pred src) by done.
    split; [done|]. simpl. by rewrite !drop_app_length.
  - destruct (Hw sr) as [o Ho]. rewrite Hpred in Ho. simpl in Ho.
    unfold issued.
    rewrite (get_runs_from_source_unknown db sr src w Ho).
    rewrite (get_runs_from_source_unknown db sr src w0 Hpred).
    split; [done|]. simpl. by rewrite drop_all.
Qed.

(** ** Input resolution from a file *)

Lemma decimal_char_uint c d :
  PyStr.is_decimal_char c = true → is_Some (uint_of_char c (Some d)).
Proof.
  destruct c as [[|] [|] [|] [|] [|] [|] [|] [|]]; vm_compute; intros H;
    first [discriminate H | eexists; reflexivity].
Qed.

Lemma uint_decimal_char c d d' :
  uint_of_char c (Some d) = Some d' →
  PyStr.is_decimal_char c = true ∧ (PyStr.code c =? 95)%N = false
  ∧ PyStr.is_space c = false ∧ (PyStr.code c =? 45)%N = false
  ∧ (PyStr.code c =? 43)%N = false.
Proof.
  intros H. apply uint_of_char_spec in H.
  repeat destruct H as [[-> ->]|H]; [..|destruct H as [-> ->]];
    repeat split; reflexivity.
Qed.

Lemma ascii_digit_char c :
  PyStr.is_ascii_char c = true → PyStr.is_digit_char c = PyStr.is_decimal_char c.
Proof.
  destruct c as [[|] [|] [|] [|] [|] [|] [|] [|]]; vm_compute; intros H;
    first [discriminate H | reflexivity].
Qed.

(** The digits of a line accumulate to the number the numeral denotes. *)
Lemma int_digits_uint line :
  ∀ u (d : Decimal.uint) b, NilEmpty.uint_of_string line = Some u →
    (b = true ∨ line ≠ "") →
    PyStr.int_digits (Z.of_N (DecimalPos.Unsigned.of_lu d)) b line
    = Some (Z.of_N (DecimalPos.Unsigned.of_lu (Decimal.revapp u d))).
Proof.
  induction line as [|c line IH]; intros u d b Hu Hb.
  - simpl in Hu. simplify_eq. destruct Hb as [->|]; done.
  - simpl in Hu. destruct (NilEmpty.uint_of_string line) as [u'|] eqn:Hu'; [|done].
    pose proof (uint_of_char_spec _ _ _ Hu) as Hc.
    assert (Hstep : ∀ k dk, PyStr.digit_val c = Z.of_N k →
              DecimalPos.Unsigned.of_lu (dk d) = (k + 10 * DecimalPos.Unsigned.of_lu d)%N →
              u = dk u' → Decimal.revapp (dk u') d = Decimal.revapp u' (dk d) →
              PyStr.is_decimal_char c = true → (PyStr.code c =? 95)%N = false →
              PyStr.int_digits (Z.of_N (DecimalPos.Unsigned.of_lu d)) b (String c line)
              = Some (Z.of_N (DecimalPos.Unsigned.of_lu (Decimal.revapp u d)))).
    { intros k dk Hv Hlu -> Hrev Hdec Hund. cbn [PyStr.int_digits].
      rewrite Hund, Hdec, Hv.
      replace (10 * Z.of_N (DecimalPos.Unsigned.of_lu d) + Z.of_N k)
        with (Z.of_N (DecimalPos.Unsigned.of_lu (dk d))) by (rewrite Hlu; lia).
      rewrite Hrev. apply IH; auto. }
    repeat destruct Hc as [[-> ->]|Hc]; [..|destruct Hc as [-> ->]].
    + by apply (Hstep 0%N Decimal.D0).
    + by apply (Hstep 1%N Decimal.D1).
    + by apply (Hstep 2%N Decimal.D2).
    + by apply (Hstep 3%N Decimal.D3).
    + by apply (Hstep 4%N Decimal.D4).
    + by apply (Hstep 5%N Decimal.D5).
    + by apply (Hstep 6%N Decimal.D6).
    + by apply (Hstep 7%N Decimal.D7).
    + by apply (Hstep 8%N Decimal.D8).
    + by apply (Hstep 9%N Decimal.D9).
Qed.

Lemma uint_all_decimal line u :
  NilEmpty.uint_of_string line = Some u →
  PyStr.all_chars PyStr.is_decimal_char line = true
  ∧ PyStr.all_chars (λ c, negb (PyStr.is_space c)) line = true.
Proof.
  revert u. induction line as [|c line IH]; intros u Hu; [done|].
  simpl in Hu. destruct (NilEmpty.uint_of_string line) as [u'|] eqn:Hu'; [|done].
  destruct (IH _ eq_refl) as [IH1 IH2].
  destruct (uint_decimal_char _ _ _ Hu) as (Hd & _ & Hs & _).
  simpl. by rewrite Hd, Hs, IH1, IH2.
Qed.

Lemma all_decimal_uint line :
  PyStr.all_chars PyStr.is_decimal_char line = true →
  is_Some (NilEmpty.uint_of_string line).
Proof.
  induction line as [|c line IH]; simpl; intros H; [by eexists|].
  apply andb_prop in H as [Hc Hl]. destruct (IH Hl) as [u ->].
  by apply decimal_char_uint.
Qed.

Lemma rstrip_no_space line :
  PyStr.all_chars (λ c, negb (PyStr.is_space c)) line = true →
  PyStr.rstrip line = line.
Proof.
  induction line as [|c line IH]; [done|]. simpl. intros H.
  apply andb_prop in H as [Hc Hl]. rewrite (IH Hl).
  destruct line; [|done]. by destruct (PyStr.is_space c).
Qed.

Lemma lstrip_no_space line :
  PyStr.all_chars (λ c, negb (PyStr.is_space c)) line = true →
  PyStr.lstrip line = line.
Proof.
  destruct line as [|c line]; [done|]. simpl. intros H.
  apply andb_prop in H as [Hc Hl]. by destruct (PyStr.is_space c).
Qed.

(** [int] on a line of decimal digits is its run id. *)
Lemma int_of_numeral line u :
  NilZero.uint_of_string line = Some u →
  PyStr.int line = Some (Z.of_N (N.of_uint u)).
Proof.
  intros Hu. destruct line as [|c line]; [done|].
  change (NilEmpty.uint_of_string (String c line) = Some u) in Hu.
  destruct (uint_all_decimal _ _ Hu) as [_ Hsp].
  unfold PyStr.int, PyStr.strip.
  rewrite (lstrip_no_space _ Hsp), (rstrip_no_space _ Hsp).
  pose proof Hu as Hu0. simpl in Hu0.
  destruct (NilEmpty.uint_of_string line) as [u'|]; [|done].
  destruct (uint_decimal_char _ _ _ Hu0) as (_ & _ & _ & Hm & Hp).
  rewrite Hm, Hp.
  assert (Hi := int_digits_uint (String c line) u Decimal.Nil false Hu).
  change (Z.of_N (DecimalPos.Unsigned.of_lu Decimal.Nil)) with 0 in Hi.
  rewrite Hi by by right.
  unfold N.of_uint. by rewrite DecimalPos.Unsigned.of_uint_alt.
Qed.

Lemma isdigit_ascii_numeral line :
  PyStr.is_ascii line = true →
  PyStr.isdigit line = true ↔ is_Some (NilZero.uint_of_string line).
Proof.
  intros Ha.
  assert (Heq : PyStr.all_chars PyStr.is_digit_char line
                = PyStr.all_chars PyStr.is_decimal_char line).
  { induction line as [|c line IH]; [done|]. simpl in *.
    apply andb_prop in Ha as [Hc Hl]. by rewrite (ascii_digit_char _ Hc), IH. }
  destruct line as [|c line].
  - split; [done|]. by intros [? ?].
  - unfold PyStr.isdigit, NilZero.uint_of_string. rewrite Heq. split.
    + apply all_decimal_uint.
    + intros [u Hu]. by apply uint_all_decimal in Hu as [? _].
Qed.

Lemma all_chars_splitlines p content :
  PyStr.all_chars p content = true →
  Forall (λ line, PyStr.all_chars p line = true) (PyStr.splitlines content).
Proof.
  assert (H : ∀ n content, (String.length content ≤ n)%nat →
            PyStr.all_chars p content = true →
            Forall (λ line, PyStr.all_chars p line = true)
                   (PyStr.splitlines content)).
  { clear content. induction n as [|n IH]; intros [|c s'] Hn Hp;
      simpl in *; try (constructor || lia).
    apply andb_prop in Hp as [Hc Hs'].
    destruct (PyStr.is_linebreak c).
    - destruct s' as [|c' s'']; [by repeat constructor|].
      simpl in Hs'. apply andb_prop in Hs' as [Hc' Hs''].
      destruct (PyStr.is_cr c && PyStr.is_lf c').
      + constructor; [done|]. apply IH; [simpl in Hn; lia|done].
      + constructor; [done|]. apply IH; [lia|]. simpl. by rewrite Hc', Hs''.
    - assert (Hrec := IH s' ltac:(lia) Hs').
      destruct (PyStr.splitlines s') as [|l ls].
      + repeat constructor. simpl. by rewrite Hc.
      + inversion Hrec; subst. constructor; [|done]. simpl. by rewrite Hc. }
  by apply (H (String.length content)).
Qed.

Section ReadFile.
Variable fs : string → option string.

Lemma read_lines_ascii lines w :
  Forall (λ line, PyStr.is_ascii line = true) lines →
  mapM (λ run_id, match PyStr.int run_id with
                  | Some n => mret n
                  | None => raise (ValueError "invalid literal for int()")
                  end)
       (List.filter PyStr.isdigit lines) w
  = (Ok (omap run_id_of_line lines), w).
Proof.
  induction 1 as [|line lines Ha _ IH]; [done|].
  pose proof (isdigit_ascii_numeral _ Ha) as Hd.
  cbn [List.filter omap list_omap]. unfold run_id_of_line at 1.
  destruct (NilZero.uint_of_string line) as [u|] eqn:Hu.
  - rewrite (proj2 Hd) by by eexists. cbn [mapM].
    rewrite (int_of_numeral _ _ Hu). rewrite bind_unfold.
    change ((mret (Z.of_N (N.of_uint u)) : M Z) w) with (Ok (Z.of_N (N.of_uint u)), w).
    cbv iota. rewrite bind_unfold, IH. reflexivity.
  - destruct (PyStr.isdigit line); [|apply IH].
    destruct (proj1 Hd eq_refl) as [? ?]. done.
Qed.

End ReadFile.


(** C9: for a path that names no file, [read_run_ids_from_file] returns the
    empty list without raising; it prints one line and changes nothing
    else. *)
Theorem C9_read_run_ids_missing_file fs filename w :
  fs filename = None →
  read_run_ids_from_file fs filename w
  = (Ok [], set_stdout (stdout w ++ ["File " ++ filename ++ " not found"]) w).
Proof. intros Hf. unfold read_run_ids_from_file. by rewrite Hf. Qed.

(** ** The availability counter *)

(** C5: with an empty list of run ids, [check_runs_available] raises
    [ValueError] at once, for every data type and extra location: the world,
    and with it the list of requests sent to the database, is untouched and
    no row is produced. *)
Theorem C5_empty_run_ids_raise db data_type extra_location w :
  check_runs_available db data_type [] extra_location w
  = (Raise (ValueError "No run_ids found"), w).
Proof. reflexivity. Qed.

Section Rounds.
Variable db : database.

(** The primary lookup sends one request and its outcome does not depend on
    the world. *)
Lemma get_lineage_hash_run c env dt w :
  get_lineage_hash db c env dt w
  = (primary_lookup db c env dt,
     set_db_log (db_log w ++ [DbFindOne "contexts" (primary_query c env)
                                        (primary_projection dt)]) w).
Proof.
  unfold primary_lookup, get_lineage_hash, find_one_contexts. run_M.
  destruct (List.find _ _) as [res|]; [|done].
  by destruct (hashes res).
Qed.

(** The lookup by version reads the global [data_type]; when it is bound it
    sends one request. *)
Lemma get_lineae_hash_from_version_run c vs w gdt :
  g_data_type w = Some gdt →
  get_lineae_hash_from_version db c vs w
  = (version_lookup db (g_data_type w) c vs,
     set_db_log (db_log w ++ [DbFindOne "contexts" (version_query c vs)
                                        ["hashes." ++ gdt]]) w).
Proof.
  intros Hg. unfold version_lookup, get_lineae_hash_from_version, find_one_contexts.
  rewrite !bind_unfold. unfold global_data_type. cbn [g_data_type initial_world].
  rewrite Hg. run_M.
  destruct (List.find _ _) as [res|]; [|done].
  destruct (hashes res) as [hs|]; [|done]. by destruct (hs !! gdt).
Qed.

Lemma get_lineae_hash_from_version_unbound c vs w :
  g_data_type w = None →
  get_lineae_hash_from_version db c vs w = (Raise (NameError "data_type"), w).
Proof.
  intros Hg. unfold get_lineae_hash_from_version.
  rewrite bind_unfold. unfold global_data_type. by rewrite Hg.
Qed.

Lemma version_lookup_unbound c vs :
  version_lookup db None c vs = Raise (NameError "data_type").
Proof. reflexivity. Qed.

(** The condition of [get_runs_from_db] on a run, for a location that counts
    as true. *)
Lemma entry_view_type e : entry_view e "type" = [BStr (de_type e)].
Proof. reflexivity. Qed.

Lemma entry_view_hash e :
  entry_view e "meta.lineage_hash" = [BStr (de_lineage_hash e)].
Proof. reflexivity. Qed.

Lemma entry_view_location e : entry_view e "location" = [BStr (de_location e)].
Proof. reflexivity. Qed.

Lemma runs_query_located ids dt h loc :
  loc ≠ "" →
  runs_query ids dt h loc
  = [("number", CIn ids);
     ("data", CElemMatch [("type", CEq (BStr dt));
                          ("meta.lineage_hash", CEq (BStr h));
                          ("location", CEq (BStr loc))])].
Proof. by destruct loc. Qed.

Lemma runs_query_matches ids dt h loc r :
  loc ≠ "" →
  matches (run_view r) (runs_query ids dt h loc)
  = existsb (Z.eqb (number r)) ids && has_data dt h loc r.
Proof.
  intros Hloc. rewrite (runs_query_located _ _ _ _ Hloc).
  unfold matches, has_data. cbn [forallb cond_holds leaf_holds].
  rewrite run_view_number, run_view_data. cbn [existsb].
  rewrite !andb_true_r, orb_false_r. f_equal.
  induction (data r) as [|e es IH]; [done|].
  cbn [fmap list_fmap existsb]. f_equal; [|exact IH].
  cbn [forallb leaf_holds].
  rewrite entry_view_type, entry_view_hash, entry_view_location.
  cbn [existsb bval_eqb]. rewrite !orb_false_r, !andb_true_r.
  rewrite (String.eqb_sym dt), (String.eqb_sym h), (String.eqb_sym loc).
  by rewrite andb_assoc.
Qed.

Lemma location_cell_matched ids dt h loc :
  loc ≠ "" →
  location_cell db ids dt h loc
  = availability_cell (length (matched_runs db ids dt h loc)) (length ids).
Proof.
  intros Hloc. unfold location_cell, matched_runs. do 2 f_equal.
  apply filter_ext. intros r. by apply runs_query_matches.
Qed.

(** A cell fails only by an arithmetic error. *)
Lemma location_cell_raise ids dt h loc e :
  location_cell db ids dt h loc = Raise e →
  e = OverflowError ∨ (e = ZeroDivisionError ∧ ids = []).
Proof.
  unfold location_cell, availability_cell, PyFloat.int_true_divide. intros Hcell.
  destruct (Z.of_nat (length ids) =? 0) eqn:Hz.
  - right. simplify_eq. split; [done|]. apply Z.eqb_eq in Hz.
    destruct ids; [done|]. simpl in Hz. lia.
  - left. destruct (SFdiv _ _ _ _); by simplify_eq.
Qed.

(** One location: its cell is computed and written under its name. *)
Lemma check_location_run dt ids h doc loc w :
  check_location db dt ids h doc loc w
  = (match location_cell db ids dt h loc with
     | Ok cell => Ok (dict_set doc loc (PStr cell))
     | Raise e => Raise e
     end,
     set_db_log (db_log w ++ [DbFind "runs" (runs_query ids dt h loc) ["number"]]) w).
Proof.
  unfold check_location, get_runs_from_db, location_cell. run_M.
  unfold lift_result. rewrite length_fmap.
  destruct (availability_cell _ _); by run_M.
Qed.

(** The loop over the locations: a row it returns holds, under each
    location's name, that location's cell, and is otherwise the row it
    started from. *)
Lemma check_locations_run dt ids h locs :
  ∀ doc w doc' w',
    foldM (check_location db dt ids h) locs doc w = (Ok doc', w') →
    (∀ k, k ∉ locs → dict_get doc' k = dict_get doc k)
    ∧ (∀ loc, loc ∈ locs →
         ∃ cell, location_cell db ids dt h loc = Ok cell
                 ∧ dict_get doc' loc = Some (PStr cell)).
Proof.
  induction locs as [|loc locs IH]; intros doc w doc' w' Hrun.
  - simpl in Hrun. rewrite mret_run in Hrun. simplify_eq.
    split; [done|]. intros loc Hin. by apply elem_of_nil in Hin.
  - cbn [foldM] in Hrun. rewrite bind_unfold, check_location_run in Hrun.
    destruct (location_cell db ids dt h loc) as [cell|e] eqn:Hcell; [|done].
    destruct (IH _ _ _ _ Hrun) as [Hout Hin]. split.
    + intros k Hk. rewrite Hout by (intros ?; apply Hk; by right).
      apply dict_get_set_ne. intros ->. apply Hk. by left.
    + intros loc' Hloc'. destruct (decide (loc' ∈ locs)) as [Hl|Hl]; [by apply Hin|].
      apply elem_of_cons in Hloc' as [->|]; [|done].
      exists cell. split; [done|]. rewrite (Hout _ Hl). apply dict_get_set_eq.
Qed.

(** The loop over the locations stops only on an arithmetic error of a
    cell. *)
Lemma check_locations_raise dt ids h locs :
  ∀ doc w e w',
    foldM (check_location db dt ids h) locs doc w = (Raise e, w') →
    e = OverflowError ∨ (e = ZeroDivisionError ∧ ids = []).
Proof.
  induction locs as [|loc locs IH]; intros doc w e w' Hrun; [done|].
  cbn [foldM] in Hrun. rewrite bind_unfold, check_location_run in Hrun.
  destruct (location_cell db ids dt h loc) as [cell|e'] eqn:Hcell; [by eapply IH|].
  simplify_eq. by eapply location_cell_raise.
Qed.

(** The second part of a round, for a lineage hash that counts as true. *)
Lemma report_context_resolved dt ids extra docs item lh vs h w :
  truthy_hash lh = Some h →
  report_context db dt ids extra docs item (lh, vs) w
  = let w1 := append_extra extra w in
    match foldM (check_location db dt ids h) (g_LOCATIONS w1)
                (new_doc item.1 item.2 ids h (normalize_versions vs)) w1 with
    | (Ok doc, w') => (Ok (docs ++ [doc])%list, w')
    | (Raise e, w') => (Raise e, w')
    end.
Proof.
  intros Hh. unfold report_context, append_extra. cbn [fst snd]. rewrite Hh.
  destruct (truthy_hash extra) as [x|]; run_M;
    unfold append_LOCATIONS, read_LOCATIONS; run_M;
    by destruct (foldM _ _ _ _) as [[doc|e] w'].
Qed.

(** The second part of a round, for a lineage hash that does not. *)
Lemma report_context_unresolved dt ids extra docs item lh vs w :
  truthy_hash lh = None →
  report_context db dt ids extra docs item (lh, vs) w
  = let w1 := append_extra extra w in
    (Ok docs,
     set_stdout (stdout w1 ++ ["Lineage hash not found for " ++ item.1
                                ++ " and " ++ item.2]) w1).
Proof.
  intros Hh. unfold report_context, append_extra. cbn [fst snd]. rewrite Hh.
  destruct (truthy_hash extra) as [x|]; run_M;
    unfold append_LOCATIONS, read_LOCATIONS; by run_M.
Qed.

Lemma append_extra_locations extra w :
  g_LOCATIONS (append_extra extra w) = (g_LOCATIONS w ++ extra_list extra)%list.
Proof.
  unfold append_extra, extra_list. destruct (truthy_hash extra); [done|].
  by rewrite app_nil_r.
Qed.

(** A round that returns: the lineage was resolved or not, the extra
    location was appended, and a resolved context added one row built by the
    loop over the locations. *)
Lemma check_context_returns dt ids extra docs item w docs' w' :
  check_context db dt ids extra docs item w = (Ok docs', w') →
  ∃ lh vs wa,
    resolve_lineage db dt item w = (Ok (lh, vs), wa)
    ∧ g_LOCATIONS wa = g_LOCATIONS w
    ∧ g_data_type wa = g_data_type w
    ∧ g_LOCATIONS w' = (g_LOCATIONS w ++ extra_list extra)%list
    ∧ g_data_type w' = g_data_type w
    ∧ match truthy_hash lh with
      | Some h =>
          ∃ doc, docs' = (docs ++ [doc])%list
            ∧ foldM (check_location db dt ids h) (g_LOCATIONS w')
                    (new_doc item.1 item.2 ids h (normalize_versions vs))
                    (append_extra extra wa) = (Ok doc, w')
      | None => docs' = docs
      end.
Proof.
  unfold check_context. rewrite bind_unfold. intros Hrun.
  destruct (resolve_lineage db dt item w) as [[[lh vs]|e] wa] eqn:Hres; [|done].
  assert (Hloc : g_LOCATIONS wa = g_LOCATIONS w).
  { change wa with (Ok (lh, vs), wa).2. rewrite <- Hres.
    by apply (resolve_lineage_respects (unchanged g_LOCATIONS)). }
  assert (Hg : g_data_type wa = g_data_type w).
  { change wa with (Ok (lh, vs), wa).2. rewrite <- Hres.
    by apply (resolve_lineage_respects (unchanged g_data_type)). }
  exists lh, vs, wa. split; [done|]. split; [done|]. split; [done|].
  destruct (truthy_hash lh) as [h|] eqn:Hh.
  - rewrite (report_context_resolved _ _ _ _ _ _ _ _ _ Hh) in Hrun. cbv zeta in Hrun.
    destruct (foldM _ _ _ _) as [[doc|e] w1] eqn:Hloop; [|done]. simplify_eq.
    assert (Hl : g_LOCATIONS w' = g_LOCATIONS (append_extra extra wa)).
    { change w' with (Ok doc, w').2. rewrite <- Hloop.
      apply (respects_foldM (unchanged g_LOCATIONS)). intros.
      by apply (check_location_respects (unchanged g_LOCATIONS)). }
    assert (Hd : g_data_type w' = g_data_type (append_extra extra wa)).
    { change w' with (Ok doc, w').2. rewrite <- Hloop.
      apply (respects_foldM (unchanged g_data_type)). intros.
      by apply (check_location_respects (unchanged g_data_type)). }
    rewrite Hl, append_extra_locations, Hloc. split; [done|].
    split; [rewrite Hd, <- Hg; unfold append_extra; by destruct (truthy_hash extra)|].
    exists doc. split; [done|]. by rewrite <- Hloc, <- append_extra_locations.
  - rewrite (report_context_unresolved _ _ _ _ _ _ _ _ Hh) in Hrun. cbv zeta in Hrun.
    simplify_eq. cbn [g_LOCATIONS g_data_type set_stdout].
    rewrite append_extra_locations, Hloc. split; [done|].
    split; [|done]. rewrite <- Hg. unfold append_extra. by destruct (truthy_hash extra).
Qed.

(** The first part of a round, case by case. *)
Lemma resolve_lineage_run dt c env w :
  resolve_lineage db dt (c, env) w
  = let w1 := set_db_log (db_log w ++ [DbFindOne "contexts" (primary_query c env)
                                                (primary_projection dt)]) w in
    match primary_lookup db c env dt with
    | Raise e => (Raise e, w1)
    | Ok (lh, vs) =>
        match truthy_hash lh with
        | Some _ => (Ok (lh, vs), w1)
        | None =>
            match ENV_VERSIONS !! c with
            | None => (Raise (KeyError c), w1)
            | Some versions =>
                match get_lineae_hash_from_version db c versions w1 with
                | (Ok lh2, w2) => (Ok (lh2, versions), w2)
                | (Raise e, w2) => (Raise e, w2)
                end
            end
        end
    end.
Proof.
  unfold resolve_lineage. cbn [fst snd].
  rewrite bind_unfold, get_lineage_hash_run. cbv zeta.
  destruct (primary_lookup db c env dt) as [[lh vs]|e]; [|done].
  cbn [fst snd]. destruct (truthy_hash lh); [by run_M|].
  destruct (ENV_VERSIONS !! c) as [versions|]; [|done].
  rewrite bind_unfold.
  destruct (get_lineae_hash_from_version _ _ _ _) as [[lh2|e] w2]; by run_M.
Qed.

(** The outcome of the first part depends on the world through the global
    [data_type] only. *)
Lemma resolve_lineage_result dt item w :
  (resolve_lineage db dt item w).1
  = (resolve_lineage db dt item (initial_world (g_data_type w))).1.
Proof.
  destruct item as [c env]. rewrite !resolve_lineage_run. cbv zeta.
  destruct (primary_lookup db c env dt) as [[lh vs]|e]; [|done].
  destruct (truthy_hash lh); [done|].
  destruct (ENV_VERSIONS !! c) as [versions|]; [|done].
  destruct (g_data_type w) as [gdt|] eqn:Hg.
  - rewrite !(get_lineae_hash_from_version_run _ _ _ gdt) by done.
    cbn [g_data_type set_db_log initial_world]. rewrite Hg.
    by destruct (version_lookup _ _ _ _).
  - by rewrite !get_lineae_hash_from_version_unbound.
Qed.

Lemma resolved_hash_run dt item w lh vs wa :
  resolve_lineage db dt item w = (Ok (lh, vs), wa) →
  resolved_hash db (g_data_type w) dt item = truthy_hash lh.
Proof.
  intros Hres. unfold resolved_hash. rewrite <- resolve_lineage_result.
  by rewrite Hres.
Qed.

End Rounds.

(** The loop over the contexts, when it returns, has appended the extra
    location once per context. *)
Lemma check_contexts_locations db dt ids extra items :
  ∀ docs w docs' w',
    foldM (check_context db dt ids extra) items docs w = (Ok docs', w') →
    g_LOCATIONS w'
    = (g_LOCATIONS w ++ mjoin (replicate (length items) (extra_list extra)))%list.
Proof.
  induction items as [|item items IH]; intros docs w docs' w' Hrun.
  - simpl in Hrun. rewrite mret_run in Hrun. simplify_eq. simpl. by rewrite app_nil_r.
  - cbn [foldM] in Hrun. rewrite bind_unfold in Hrun.
    destruct (check_context db dt ids extra docs item w) as [[docs1|e] w1] eqn:Hc;
      [|done].
    apply check_context_returns in Hc as (lh & vs & wa & _ & _ & _ & Hl & _).
    rewrite (IH _ _ _ _ Hrun), Hl. simpl. by rewrite <- app_assoc.
Qed.

(** C1, as the code has it: when the primary lookup of the last recommended
    context, xenonnt_v8, resolves no lineage hash, the run does not skip that
    context: it ends with an exception and returns no report, because the
    table of fallback versions has no entry for xenonnt_v8. *)
Theorem C1_unresolved_xenonnt_v8_aborts db data_type run_ids extra_location w :
  run_ids ≠ [] →
  (∀ lh vs, primary_lookup db "xenonnt_v8" "2022.06.3" data_type = Ok (lh, vs) →
            truthy_hash lh = None) →
  ∃ e w', check_runs_available db data_type run_ids extra_location w = (Raise e, w').
Proof.
  intros Hids Hv8. unfold check_runs_available.
  destruct run_ids as [|id ids]; [done|].
  change RECOMMENDED
    with ([("xenonnt_v14", "2024.01.1"); ("xenonnt_v13", "2023.11.1");
           ("xenonnt_v12", "2023.10.1"); ("xenonnt_v11", "2023.07.1")]
          ++ [("xenonnt_v8", "2022.06.3")])%list.
  rewrite foldM_app, bind_unfold.
  destruct (foldM _ _ _ w) as [[docs|e] w1]; [|by eauto].
  cbn [foldM]. rewrite bind_unfold. unfold check_context at 1.
  rewrite bind_unfold, resolve_lineage_run. cbv zeta.
  destruct (primary_lookup db "xenonnt_v8" "2022.06.3" data_type)
    as [[lh vs]|e] eqn:Hp; [|by eauto].
  rewrite (Hv8 _ _ eq_refl).
  change (ENV_VERSIONS !! "xenonnt_v8") with (@None (pydict string)).
  by eauto.
Qed.

(** C2, as the code has it: a run with an extra location that returns leaves
    the module-level list [LOCATIONS] longer by one copy of the extra
    location per recommended context, five in all; the list is not left
    unchanged, and from the second context on the extra location is checked
    more than once. *)
Theorem C2_extra_location_accumulates db data_type run_ids extra_location x w :
  truthy_hash extra_location = Some x →
  succeeded (check_runs_available db data_type run_ids extra_location w).1 = true →
  g_LOCATIONS (check_runs_available db data_type run_ids extra_location w).2
  = (g_LOCATIONS w ++ [x; x; x; x; x])%list.
Proof.
  intros Hx Hok.
  destruct (check_runs_available _ _ _ _ _) as [[rows|e] w'] eqn:Hrun; [|done].
  unfold check_runs_available in Hrun. destruct run_ids as [|id ids]; [done|].
  apply check_contexts_locations in Hrun. cbn [snd]. rewrite Hrun.
  unfold extra_list. by rewrite Hx.
Qed.

#[global] Instance only_runs_requests_preorder : PreOrder only_runs_requests.
Proof.
  split.
  - intros w. exists []. by rewrite app_nil_r.
  - intros w1 w2 w3 (l1 & H1 & F1) (l2 & H2 & F2). exists (l1 ++ l2)%list.
    split; [by rewrite H2, H1, app_assoc|by apply Forall_app].
Qed.

Lemma report_context_only_runs db dt ids extra docs item found w :
  only_runs_requests w (report_context db dt ids extra docs item found w).2.
Proof.
  apply (report_context_respects only_runs_requests).
  - intros q p w0. exists [DbFind "runs" q p]. split; [done|]. by repeat constructor.
  - intros line w0. exists []. by rewrite app_nil_r.
  - intros x w0 _. exists []. by rewrite app_nil_r.
Qed.

(** The primary lookup that resolves a hash read it, and the versions, off a
    document of the contexts collection. *)
Lemma primary_lookup_document db c env dt lh vs h :
  primary_lookup db c env dt = Ok (lh, vs) →
  truthy_hash lh = Some h →
  ∃ res, List.find (λ d, matches (ctx_view d) (primary_query c env)) (contexts db)
         = Some res
    ∧ vs = [("straxen_version", default "UNKNOWN" (straxen_version res));
            ("strax_version", default "UNKNOWN" (strax_version res));
            ("cutax_version", default "UNKNOWN" (cutax_version res))].
Proof.
  unfold primary_lookup, get_lineage_hash, find_one_contexts. run_M.
  destruct (List.find _ _) as [res|]; [destruct (hashes res)|];
    run_M; cbn [fst]; intros H Hh; simplify_eq.
  by exists res.
Qed.

(** ** The rows of the report *)


Lemma filter_none {A} (f : A → bool) (l : list A) :
  Forall (λ x, f x = false) l → List.filter f l = [].
Proof. induction 1 as [|x l Hx _ IH]; [done|]. simpl. by rewrite Hx. Qed.

(** The row a round builds for a resolved context: outside the location
    columns it is the dictionary literal the round started from. *)
Lemma report_context_row db dt ids extra docs item lh vs h w :
  ids ≠ [] →
  truthy_hash lh = Some h →
  (report_context db dt ids extra docs item (lh, vs) w).1 = Raise OverflowError
  ∨ ∃ row,
      (report_context db dt ids extra docs item (lh, vs) w).1 = Ok (docs ++ [row])%list
      ∧ ∀ k, k ∉ (g_LOCATIONS w ++ extra_list extra)%list →
             dict_get row k
             = dict_get (new_doc item.1 item.2 ids h (normalize_versions vs)) k.
Proof.
  intros Hids Hh. rewrite (report_context_resolved _ _ _ _ _ _ _ _ _ _ Hh). cbv zeta.
  destruct (foldM _ _ _ _) as [[doc|e] w'] eqn:Hloop.
  - right. exists doc. split; [done|]. intros k Hk.
    apply check_locations_run in Hloop as [Hout _]. apply Hout.
    by rewrite append_extra_locations.
  - left. apply check_locations_raise in Hloop as [->|[_ ?]]; done.
Qed.

Lemma no_collision_notin (w : world) extra k :
  (∀ loc, loc ∈ g_LOCATIONS w ∨ truthy_hash extra = Some loc → loc ∉ version_columns) →
  k ∈ version_columns →
  k ∉ (g_LOCATIONS w ++ extra_list extra)%list.
Proof.
  intros Hno Hk Hin. apply elem_of_app in Hin as [Hin|Hin].
  - by apply (Hno k); [left|].
  - unfold extra_list in Hin. destruct (truthy_hash extra) as [x|] eqn:Hx.
    + apply list_elem_of_singleton in Hin as ->. by apply (Hno x); [right|].
    + by apply elem_of_nil in Hin.
Qed.

(** C8, as read from the code: when the primary lookup yields a lineage hash
    for a context, the round of that context sends a single request to the
    contexts collection, the primary one, so the lookup by version is not
    invoked; and unless a cell overflows the round adds one row whose version
    columns hold the versions of the primary lookup's document (UNKNOWN for
    a version the document lacks), provided no checked location is named
    like a version column. *)
Theorem C8_primary_hash_no_fallback db data_type run_ids extra_location docs
    context environment w lh vs h :
  run_ids ≠ [] →
  primary_lookup db context environment data_type = Ok (lh, vs) →
  truthy_hash lh = Some h →
  (∀ loc, loc ∈ g_LOCATIONS w ∨ truthy_hash extra_location = Some loc →
          loc ∉ version_columns) →
  let round := check_context db data_type run_ids extra_location docs
                             (context, environment) in
  List.filter to_contexts (issued round w)
  = [DbFindOne "contexts" (primary_query context environment)
               (primary_projection data_type)]
  ∧ ((round w).1 = Raise OverflowError
     ∨ ∃ res row,
         List.find (λ d, matches (ctx_view d) (primary_query context environment))
                   (contexts db) = Some res
         ∧ (round w).1 = Ok (docs ++ [row])%list
         ∧ dict_get row "straxen"
           = Some (PStr (default "UNKNOWN" (straxen_version res)))
         ∧ dict_get row "strax"
           = Some (PStr (default "UNKNOWN" (strax_version res)))
         ∧ dict_get row "cutax"
           = Some (PStr (default "UNKNOWN" (cutax_version res)))).
Proof.
  intros Hids Hp Hh Hno round. unfold issued, round, check_context.
  rewrite bind_unfold, resolve_lineage_run. cbv zeta. rewrite Hp, Hh.
  set (w1 := set_db_log _ w). split.
  - destruct (report_context_only_runs db data_type run_ids extra_location docs
                (context, environment) (lh, vs) w1) as (l & Hl & Hf).
    rewrite Hl. subst w1. cbn [db_log set_db_log].
    rewrite <- app_assoc, drop_app_length. simpl.
    by rewrite (filter_none _ _ Hf).
  - destruct (report_context_row db data_type run_ids extra_location docs
                (context, environment) lh vs h w1 Hids Hh) as [Hr|(row & Hr & Hrow)];
      [by left|right].
    destruct (primary_lookup_document _ _ _ _ _ _ _ Hp Hh) as (res & Hres & ->).
    exists res, row. split; [done|]. split; [done|].
    rewrite !Hrow by by apply no_collision_notin; [|set_solver].
    done.
Qed.

(** Every entry of the table of fallback versions lists the three versions;
    its keys, cut at the underscore, are the version columns. *)
Lemma ENV_VERSIONS_entry context versions :
  ENV_VERSIONS !! context = Some versions →
  ∃ a b c, versions = [("straxen_version", a); ("strax_version", b);
                       ("cutax_version", c)].
Proof. unfold ENV_VERSIONS. intros H. table_cases H; by eexists _, _, _. Qed.

(** C7, as read from the code: when only the lookup by version resolves the
    lineage hash of a context, the round of that context adds, unless a cell
    overflows, one row whose version columns hold the versions of the
    hand-maintained table [ENV_VERSIONS] for that context, each under its key
    cut at the underscore, provided no checked location is named like a
    version column. *)
Theorem C7_fallback_versions_from_table db data_type run_ids extra_location docs
    context environment w lh vs0 versions lh2 h :
  run_ids ≠ [] →
  primary_lookup db context environment data_type = Ok (lh, vs0) →
  truthy_hash lh = None →
  ENV_VERSIONS !! context = Some versions →
  version_lookup db (g_data_type w) context versions = Ok lh2 →
  truthy_hash lh2 = Some h →
  (∀ loc, loc ∈ g_LOCATIONS w ∨ truthy_hash extra_location = Some loc →
          loc ∉ version_columns) →
  let round := check_context db data_type run_ids extra_location docs
                             (context, environment) in
  (round w).1 = Raise OverflowError
  ∨ ∃ row,
      (round w).1 = Ok (docs ++ [row])%list
      ∧ ∀ k v, dict_get versions k = Some v →
               dict_get row (PyStr.before_underscore k) = Some (PStr v).
Proof.
  intros Hids Hp Hh Hvs Hv Hh2 Hno round. unfold round, check_context.
  rewrite bind_unfold, resolve_lineage_run. cbv zeta. rewrite Hp, Hh, Hvs.
  set (w1 := set_db_log _ w).
  destruct (g_data_type w) as [gdt|] eqn:Hg; [|done].
  rewrite (get_lineae_hash_from_version_run db context versions w1 gdt) by done.
  change (g_data_type w1) with (g_data_type w). rewrite Hg, Hv.
  set (w2 := set_db_log _ w1).
  destruct (report_context_row db data_type run_ids extra_location docs
              (context, environment) lh2 versions h w2 Hids Hh2)
    as [Hr|(row & Hr & Hrow)]; [by left|right].
  exists row. split; [done|]. intros k v Hk.
  destruct (ENV_VERSIONS_entry _ _ Hvs) as (a & b & c & ->).
  assert (Hcases : (k = "straxen_version" ∧ v = a) ∨ (k = "strax_version" ∧ v = b)
                   ∨ (k = "cutax_version" ∧ v = c)).
  { cbn [dict_get] in Hk.
    destruct (String.eqb_spec "straxen_version" k) as [<-|_]; [left; by simplify_eq|].
    destruct (String.eqb_spec "strax_version" k) as [<-|_];
      [right; left; by simplify_eq|].
    destruct (String.eqb_spec "cutax_version" k) as [<-|_]; [|done].
    right; right; by simplify_eq. }
  destruct Hcases as [[-> ->]|[[-> ->]|[-> ->]]];
    (rewrite Hrow by by apply (no_collision_notin w); [|set_solver]); done.
Qed.

(** ** The numbers in a cell *)

Lemma string_app_assoc (a b c : string) : (a ++ b) ++ c = a ++ b ++ c.
Proof.
  induction a as [|x a IH]; [done|].
  change (String x ((a ++ b) ++ c) = String x (a ++ b ++ c)). by rewrite IH.
Qed.

(** The cell shows the count and the percentage in tenths. *)
Lemma availability_cell_tenths n total t :
  percent_tenths n total = Some t →
  availability_cell n total
  = Ok (PyStr.str_of_N (N.of_nat n) ++ " (" ++ PyStr.str_of_N (Z.to_N (t / 10))
        ++ "." ++ PyStr.str_of_N (Z.to_N (t mod 10)) ++ "%)").
Proof.
  unfold percent_tenths, availability_cell.
  destruct (PyFloat.int_true_divide _ _) as [|x]; [done|].
  destruct (PyFloat.mul x _) as [[|]| | |[|] m e]; intros H; simplify_eq;
    [done|].
  unfold PyFloat.format_1f, PyFloat.sign_prefix.
  change ("" ++ ?s) with s. by rewrite !string_app_assoc.
Qed.

(** For up to 128 run ids, the percentage shown is a tenth nearest to the
    exact percentage: rounding the quotient and the product to floats does
    not move it to another tenth. *)
Lemma percent_nearest_tenth (n total : nat) :
  (1 ≤ total ≤ 128)%nat → (n ≤ total)%nat →
  ∃ t, percent_tenths n total = Some t
       ∧ Z.abs (t * Z.of_nat total - 1000 * Z.of_nat n) * 2 <= Z.of_nat total.
Proof.
  intros Ht Hn.
  assert (Hall : forallb (λ total, forallb (λ n, nearest_tenth n total)
                                           (seq 0 (S total)))
                         (seq 1 128) = true) by (vm_compute; reflexivity).
  assert (Hin1 : In total (seq 1 128)) by (apply in_seq; lia).
  assert (Hin2 : In n (seq 0 (S total))) by (apply in_seq; lia).
  rewrite forallb_forall in Hall. specialize (Hall total Hin1).
  rewrite forallb_forall in Hall. specialize (Hall n Hin2).
  unfold nearest_tenth in Hall.
  destruct (percent_tenths n total) as [t|]; [|done].
  exists t. split; [done|]. by apply Z.leb_le.
Qed.

(** When the run numbers of the collection are distinct and so are the input
    run ids, the count of a cell is the number of input run ids that are
    available at the location. *)
Lemma matched_runs_count_ids db ids dt h loc :
  NoDup (number <$> runs db) →
  NoDup ids →
  length (matched_runs db ids dt h loc)
  = length (List.filter (id_available db dt h loc) ids).
Proof.
  intros Hruns Hids.
  rewrite <- (length_fmap number (matched_runs db ids dt h loc)).
  apply Permutation_length, NoDup_Permutation.
  - unfold matched_runs. revert Hruns. generalize (runs db) as rs.
    induction rs as [|r rs IH]; intros Hnd; [constructor|].
    cbn [fmap list_fmap] in Hnd. apply NoDup_cons in Hnd as [Hr Hnd].
    cbn [List.filter]. destruct (_ && _); [|by apply IH].
    cbn [fmap list_fmap]. apply NoDup_cons. split; [|by apply IH].
    intros Hin. apply Hr. apply list_elem_of_fmap in Hin as (r' & -> & Hin).
    apply list_elem_of_fmap. exists r'. split; [done|].
    apply list_elem_of_In in Hin. apply filter_In in Hin as [Hin _].
    by apply list_elem_of_In.
  - clear Hruns. induction Hids as [|id ids Hid Hnd IH]; [constructor|].
    cbn [List.filter]. destruct (id_available _ _ _ _ _); [|done].
    apply NoDup_cons. split; [|done]. intros Hin. apply Hid.
    apply list_elem_of_In in Hin. apply filter_In in Hin as [Hin _].
    by apply list_elem_of_In.
  - intros id. unfold matched_runs, id_available. split.
    + intros Hin. apply list_elem_of_fmap in Hin as (r & -> & Hin).
      apply list_elem_of_In, filter_In in Hin as [Hin Hr].
      apply andb_prop in Hr as [Hid Hdata].
      apply list_elem_of_In, filter_In. split.
      * apply existsb_exists in Hid as (id & Hid & Heq).
        apply Z.eqb_eq in Heq. by subst.
      * apply existsb_exists. exists r. split; [done|].
        by rewrite Z.eqb_refl, Hdata.
    + intros Hin. apply list_elem_of_In, filter_In in Hin as [Hin Hav].
      apply existsb_exists in Hav as (r & Hr & Hav).
      apply andb_prop in Hav as [Heq Hdata]. apply Z.eqb_eq in Heq. subst.
      apply list_elem_of_fmap. exists r. split; [done|].
      apply list_elem_of_In, filter_In. split; [done|].
      rewrite Hdata, andb_true_r. apply existsb_exists.
      exists (number r). split; [done|]. apply Z.eqb_refl.
Qed.

(** ** The properties on the example data *)

Lemma C6_get_runs_from_source_witness :
  SCIENCE_RUNS !! "sr0"
  = Some [("$or", COr [[("tags.name", CEq (BStr "_sr0"))];
                       [("source", CEq (BStr "th-232"));
                        ("start", CLte (BDate (datetime_ymd 2022 8 1)))]])]
  ∧ (get_runs_from_source example_db "sr0" "th-232" script_world).1 = Ok [2; 3].
Proof.
  split; [vm_compute; reflexivity|].
  assert (H := proj1 (C6_get_runs_from_source example_db example_db example_fs []
                        (Some "peaklets") "sr0" _ "th-232" eq_refl)).
  change (exec_calls example_db example_fs [] (initial_world (Some "peaklets")))
    with script_world in H.
  rewrite H. vm_compute. reflexivity.
Defined.



Lemma C9_read_run_ids_missing_file_witness :
  example_fs "missing.txt" = None
  ∧ read_run_ids_from_file example_fs "missing.txt" script_world
    = (Ok [], set_stdout ["File missing.txt not found"] script_world).
Proof.
  split; [reflexivity|].
  exact (C9_read_run_ids_missing_file example_fs "missing.txt" script_world eq_refl).
Defined.

Lemma C1_unresolved_xenonnt_v8_aborts_witness :
  [7] ≠ []
  ∧ primary_lookup empty_db "xenonnt_v8" "2022.06.3" "peaklets" = Ok (None, [])
  ∧ ∃ e w', check_runs_available empty_db "peaklets" [7] None script_world
            = (Raise e, w').
Proof.
  split; [done|]. split; [reflexivity|].
  apply (C1_unresolved_xenonnt_v8_aborts empty_db "peaklets" [7] None script_world);
    [done|].
  intros lh vs H. vm_compute in H. by simplify_eq.
Defined.

(** The run on the empty contexts collection: four contexts are skipped with
    a printed line, then the fifth ends the run with [KeyError]. *)
Lemma C1_failing_run :
  let run := check_runs_available empty_db "peaklets" [7] None script_world in
  run.1 = Raise (KeyError "xenonnt_v8")
  ∧ stdout run.2
    = ["Lineage hash not found for xenonnt_v14 and 2024.01.1";
       "Lineage hash not found for xenonnt_v13 and 2023.11.1";
       "Lineage hash not found for xenonnt_v12 and 2023.10.1";
       "Lineage hash not found for xenonnt_v11 and 2023.07.1"].
Proof. vm_compute. split; reflexivity. Qed.

Lemma C2_extra_location_accumulates_witness :
  truthy_hash (Some "X") = Some "X"
  ∧ g_LOCATIONS (check_runs_available example_db "peaklets" [1; 2; 3] (Some "X")
                   script_world).2
    = ["UC_DALI_USERDISK"; "UC_MIDWAY_USERDISK"; "X"; "X"; "X"; "X"; "X"].
Proof.
  split; [reflexivity|].
  apply (C2_extra_location_accumulates example_db "peaklets" [1; 2; 3] (Some "X") "X"
           script_world); vm_compute; reflexivity.
Defined.

(** The locations the run above checks for its second row: the extra
    location is asked for twice. *)
Lemma C2_failing_run :
  let run := check_runs_available example_db "peaklets" [1; 2; 3] (Some "X")
               script_world in
  omap (λ c, match c with
             | DbFind _ [_; (_, CElemMatch [_; (_, CEq (BStr "def"));
                                            (_, CEq (BStr loc))])] _ => Some loc
             | _ => None
             end)
       (db_log run.2)
  = ["UC_DALI_USERDISK"; "UC_MIDWAY_USERDISK"; "X"; "X"].
Proof. vm_compute. reflexivity. Qed.


Lemma script_world_no_collision loc :
  loc ∈ g_LOCATIONS script_world ∨ truthy_hash None = Some loc →
  loc ∉ version_columns.
Proof.
  intros [Hloc|Hloc]; [|done].
  apply elem_of_cons in Hloc as [->|Hloc];
    [|apply elem_of_cons in Hloc as [->|Hloc]; [|by apply elem_of_nil in Hloc]];
    apply (bool_decide_unpack _); by vm_compute.
Qed.

Lemma C8_primary_hash_no_fallback_witness :
  let round := check_context example_db "peaklets" [1; 2; 3] None []
                             ("xenonnt_v14", "2024.01.1") in
  primary_lookup example_db "xenonnt_v14" "2024.01.1" "peaklets"
  = Ok (Some "abc", [("straxen_version", "2.2.0"); ("strax_version", "1.6.0");
                     ("cutax_version", "1.16.0")])
  ∧ List.filter to_contexts (issued round script_world)
    = [DbFindOne "contexts" (primary_query "xenonnt_v14" "2024.01.1")
                 (primary_projection "peaklets")]
  ∧ ∃ row, (round script_world).1 = Ok [row]
           ∧ dict_get row "straxen" = Some (PStr "2.2.0")
           ∧ dict_get row "strax" = Some (PStr "1.6.0")
           ∧ dict_get row "cutax" = Some (PStr "1.16.0").
Proof.
  intros round. split; [vm_compute; reflexivity|].
  destruct (C8_primary_hash_no_fallback example_db "peaklets" [1; 2; 3] None []
              "xenonnt_v14" "2024.01.1" script_world (Some "abc")
              [("straxen_version", "2.2.0"); ("strax_version", "1.6.0");
               ("cutax_version", "1.16.0")] "abc")
    as [Hlog Hrow].
  - done.
  - vm_compute. reflexivity.
  - reflexivity.
  - apply script_world_no_collision.
  - split; [exact Hlog|].
    destruct Hrow as [Hr|(res & row & Hres & Hr & H1 & H2 & H3)].
    + vm_compute in Hr. discriminate Hr.
    + vm_compute in Hres. injection Hres as <-.
      exists row. by repeat split.
Defined.

Lemma C7_fallback_versions_from_table_witness :
  let round := check_context example_db "peaklets" [1; 2; 3] None []
                             ("xenonnt_v13", "2023.11.1") in
  primary_lookup example_db "xenonnt_v13" "2023.11.1" "peaklets" = Ok (None, [])
  ∧ ENV_VERSIONS !! "xenonnt_v13"
    = Some [("straxen_version", "2.1.5"); ("strax_version", "1.5.4");
            ("cutax_version", "1.15.5")]
  ∧ ∃ row, (round script_world).1 = Ok [row]
           ∧ dict_get row "straxen" = Some (PStr "2.1.5")
           ∧ dict_get row "strax" = Some (PStr "1.5.4")
           ∧ dict_get row "cutax" = Some (PStr "1.15.5").
Proof.
  intros round. split; [vm_compute; reflexivity|]. split; [vm_compute; reflexivity|].
  destruct (C7_fallback_versions_from_table example_db "peaklets" [1; 2; 3] None []
              "xenonnt_v13" "2023.11.1" script_world None []
              [("straxen_version", "2.1.5"); ("strax_version", "1.5.4");
               ("cutax_version", "1.15.5")] (Some "def") "def")
    as [Hr|(row & Hr & Hrow)].
  - done.
  - vm_compute. reflexivity.
  - reflexivity.
  - vm_compute. reflexivity.
  - vm_compute. reflexivity.
  - reflexivity.
  - apply script_world_no_collision.
  - vm_compute in Hr. discriminate Hr.
  - exists row. split; [exact Hr|].
    split; [exact (Hrow "straxen_version" "2.1.5" eq_refl)|].
    split; [exact (Hrow "strax_version" "1.5.4" eq_refl)|].
    exact (Hrow "cutax_version" "1.15.5" eq_refl).
Defined.

(** C7 as stated fails for an extra location named like a version column:
    the row of xenonnt_v13, resolved by version only, then shows a cell where
    the table's strax version 1.5.4 should be. *)
Lemma C7_counterexample :
  let run := check_runs_available example_db "peaklets" [1; 2; 3] (Some "strax")
               script_world in
  primary_lookup example_db "xenonnt_v13" "2023.11.1" "peaklets" = Ok (None, [])
  ∧ ENV_VERSIONS !! "xenonnt_v13"
    = Some [("straxen_version", "2.1.5"); ("strax_version", "1.5.4");
            ("cutax_version", "1.15.5")]
  ∧ ∃ r14 r13 r8, run.1 = Ok [r14; r13; r8]
      ∧ dict_get r13 "Context" = Some (PStr "xenonnt_v13")
      ∧ dict_get r13 "LineageHash" = Some (PStr "def")
      ∧ dict_get r13 "strax" = Some (PStr "0 (0.0%)").
Proof.
  split; [vm_compute; reflexivity|]. split; [vm_compute; reflexivity|].
  eexists _, _, _. split; [vm_compute; reflexivity|].
  repeat split; vm_compute; reflexivity.
Qed.

(** C8 as stated fails in the same way: the row of xenonnt_v14, resolved by
    the primary lookup, shows a cell where the document's strax version 1.6.0
    should be. *)
Lemma C8_counterexample :
  let run := check_runs_available example_db "peaklets" [1; 2; 3] (Some "strax")
               script_world in
  primary_lookup example_db "xenonnt_v14" "2024.01.1" "peaklets"
  = Ok (Some "abc", [("straxen_version", "2.2.0"); ("strax_version", "1.6.0");
                     ("cutax_version", "1.16.0")])
  ∧ ∃ r14 r13 r8, run.1 = Ok [r14; r13; r8]
      ∧ dict_get r14 "Context" = Some (PStr "xenonnt_v14")
      ∧ dict_get r14 "straxen" = Some (PStr "2.2.0")
      ∧ dict_get r14 "strax" = Some (PStr "0 (0.0%)").
Proof.
  split; [vm_compute; reflexivity|].
  eexists _, _, _. split; [vm_compute; reflexivity|].
  repeat split; vm_compute; reflexivity.
Qed.

(** * Further properties of the code *)

(** ** Runs of a science run and a source *)

Section SourceRuns.
Variables (db db' : database) (fs : string → option string).

Lemma reached_science_runs_ok cs g :
  science_runs_ok (g_SCIENCE_RUNS (exec_calls db' fs cs (initial_world g))).
Proof. apply exec_calls_ok, science_runs_ok_init. Qed.

(** A science run that is not a key of [SCIENCE_RUNS] makes
    [get_runs_from_source] raise [KeyError] before anything else happens: no
    request is sent and the table is not written, whatever was called
    before. *)
Theorem get_runs_from_source_unknown_science_run cs g sr src :
  SCIENCE_RUNS !! sr = None →
  let w := exec_calls db' fs cs (initial_world g) in
  get_runs_from_source db sr src w = (Raise (KeyError sr), w).
Proof.
  intros Hsr w. apply get_runs_from_source_unknown.
  destruct (reached_science_runs_ok cs g sr) as [o Ho]. fold w in Ho.
  by rewrite Hsr in Ho.
Qed.

(** What [get_runs_from_source] returns for a science run of the table, in a
    world reached by earlier calls: the runs its predicate and the source
    select. *)
Lemma get_runs_from_source_result cs g sr pred src :
  SCIENCE_RUNS !! sr = Some pred →
  (get_runs_from_source db sr src (exec_calls db' fs cs (initial_world g))).1
  = Ok (number <$> List.filter
          (λ r, matches (run_view r) pred && String.eqb (source r) src) (runs db)).
Proof.
  intros Hpred.
  rewrite (get_runs_from_source_pristine db sr pred src);
    [|apply reached_science_runs_ok|done].
  cbn [fst]. do 2 f_equal. apply filter_ext. intros r.
  rewrite matches_dict_set_fresh by by eapply SCIENCE_RUNS_no_source.
  by rewrite cond_holds_source.
Qed.

(** For science run sr0 and a source other than th-232, the alternative for
    thorium runs never applies: the call returns the runs tagged [_sr0] with
    that source, whatever their start date. *)
Theorem get_runs_from_source_sr0_other_source cs g src :
  src ≠ "th-232" →
  (get_runs_from_source db "sr0" src (exec_calls db' fs cs (initial_world g))).1
  = Ok (number <$> List.filter
          (λ r, has_tag "_sr0" r && String.eqb (source r) src) (runs db)).
Proof.
  intros Hsrc.
  destruct (SCIENCE_RUNS !! "sr0") as [pred|] eqn:Hpred; [|by vm_compute in Hpred].
  rewrite (get_runs_from_source_result cs g "sr0" pred src Hpred).
  do 2 f_equal. apply filter_ext. intros r.
  rewrite (sr0_predicate pred r Hpred). unfold sr0_selects, has_tag.
  destruct (String.eqb_spec (source r) src) as [->|]; [|by rewrite !andb_false_r].
  destruct (String.eqb_spec src "th-232"); [done|].
  by rewrite andb_false_l, orb_false_r.
Qed.

(** For science runs sr0_ted and sr1 the call returns the runs that carry
    the tag of the science run and have exactly the given source. *)
Theorem get_runs_from_source_tagged cs g sr tag src :
  (sr = "sr0_ted" ∧ tag = "_sr0_ted") ∨ (sr = "sr1" ∧ tag = "_sr1_preliminary") →
  (get_runs_from_source db sr src (exec_calls db' fs cs (initial_world g))).1
  = Ok (number <$> List.filter
          (λ r, has_tag tag r && String.eqb (source r) src) (runs db)).
Proof.
  intros Hsr.
  assert (Hpred : SCIENCE_RUNS !! sr = Some [("tags.name", CEq (BStr tag))]).
  { destruct Hsr as [[-> ->]|[-> ->]]; by vm_compute. }
  rewrite (get_runs_from_source_result cs g sr _ src Hpred).
  do 2 f_equal. apply filter_ext. intros r. f_equal.
  unfold matches, has_tag. cbn [forallb cond_holds leaf_holds].
  by rewrite run_view_tags, existsb_tags, andb_true_r.
Qed.

End SourceRuns.

Lemma get_runs_from_source_unknown_science_run_witness :
  SCIENCE_RUNS !! "sr2" = None
  ∧ get_runs_from_source example_db "sr2" "none" script_world
    = (Raise (KeyError "sr2"), script_world).
Proof.
  split; [by vm_compute|].
  exact (get_runs_from_source_unknown_science_run example_db example_db example_fs []
           (Some "peaklets") "sr2" "none" eq_refl).
Defined.

Lemma get_runs_from_source_sr0_other_source_witness :
  "none" ≠ "th-232"
  ∧ (get_runs_from_source example_db "sr0" "none" script_world).1 = Ok [1].
Proof.
  split; [done|].
  assert (H := get_runs_from_source_sr0_other_source example_db example_db example_fs
                 [] (Some "peaklets") "none" ltac:(done)).
  change (exec_calls example_db example_fs [] (initial_world (Some "peaklets")))
    with script_world in H.
  rewrite H. by vm_compute.
Defined.

Lemma get_runs_from_source_tagged_witness :
  (get_runs_from_source example_db "sr1" "none" script_world).1 = Ok [].
Proof.
  assert (H := get_runs_from_source_tagged example_db example_db example_fs
                 [] (Some "peaklets") "sr1" "_sr1_preliminary" "none"
                 (or_intror (conj eq_refl eq_refl))).
  change (exec_calls example_db example_fs [] (initial_world (Some "peaklets")))
    with script_world in H.
  rewrite H. by vm_compute.
Defined.

(** ** Runs that hold the data *)

(** The condition of [get_runs_from_db] on a run, for any location: the run's
    number is among the run ids and one of its data entries has the type and
    the lineage hash, and also the location unless the location is empty. *)
Lemma runs_query_matches_at ids dt h loc r :
  matches (run_view r) (runs_query ids dt h loc)
  = existsb (Z.eqb (number r)) ids && has_data_at dt h loc r.
Proof.
  destruct loc as [|a loc].
  - unfold runs_query, matches, has_data_at.
    cbn [PyStr.truthy negb orb forallb cond_holds leaf_holds].
    rewrite run_view_number, run_view_data. cbn [existsb].
    rewrite !andb_true_r, orb_false_r. f_equal.
    induction (data r) as [|e es IH]; [done|].
    cbn [fmap list_fmap existsb]. f_equal; [|exact IH].
    cbn [forallb leaf_holds]. rewrite entry_view_type, entry_view_hash.
    cbn [existsb bval_eqb]. rewrite !orb_false_r, !andb_true_r.
    by rewrite (String.eqb_sym dt), (String.eqb_sym h).
  - rewrite runs_query_matches by done. reflexivity.
Qed.

Section RunsFromDb.
Variable db : database.

(** What [get_runs_from_db] does, for any location. *)
Lemma get_runs_from_db_found ids dt h loc w :
  get_runs_from_db db ids dt h loc w
  = (Ok (number <$> List.filter
           (λ r, existsb (Z.eqb (number r)) ids && has_data_at dt h loc r) (runs db)),
     set_db_log (db_log w ++ [DbFind "runs" (runs_query ids dt h loc) ["number"]]) w).
Proof.
  unfold get_runs_from_db. run_M. do 3 f_equal.
  apply filter_ext. intros r. apply runs_query_matches_at.
Qed.

(** [get_runs_from_db] sends one request and touches nothing else; every
    number it returns is one of the run ids and is the number of a run of the
    collection that holds the data. *)
Theorem get_runs_from_db_among_run_ids ids dt h loc w :
  ∃ found,
    get_runs_from_db db ids dt h loc w
    = (Ok found,
       set_db_log (db_log w ++ [DbFind "runs" (runs_query ids dt h loc) ["number"]]) w)
    ∧ Forall (λ n, n ∈ ids
                   ∧ ∃ r, r ∈ runs db ∧ number r = n ∧ has_data_at dt h loc r = true)
             found.
Proof.
  eexists. split; [apply get_runs_from_db_found|].
  apply Forall_fmap, Forall_forall. intros r Hr.
  apply list_elem_of_In, filter_In in Hr as [Hin Hr].
  apply andb_prop in Hr as [Hr Hdata]. apply existsb_exists in Hr as (n & Hn & Heq).
  apply Z.eqb_eq in Heq. cbn. split.
  - rewrite Heq. by apply list_elem_of_In.
  - exists r. split; [by apply list_elem_of_In|done].
Qed.

Lemma filter_sublist_impl {A} (f g : A → bool) (l : list A) :
  (∀ x, f x = true → g x = true) → sublist (List.filter f l) (List.filter g l).
Proof.
  intros Hfg. induction l as [|x l IH]; [done|]. cbn [List.filter].
  destruct (f x) eqn:Hf.
  - rewrite (Hfg x Hf). by constructor.
  - destruct (g x); [by constructor|done].
Qed.

(** Asking for a location only narrows the answer: the runs found at a
    location are, in order, among the runs found when no location is given
    (the default of [get_runs_from_db]). *)
Theorem get_runs_from_db_location_narrows ids dt h loc w w' :
  ∃ located anywhere,
    (get_runs_from_db db ids dt h loc w).1 = Ok located
    ∧ (get_runs_from_db db ids dt h "" w').1 = Ok anywhere
    ∧ sublist located anywhere.
Proof.
  eexists _, _. rewrite !get_runs_from_db_found. split; [done|]. split; [done|].
  apply fmap_sublist, filter_sublist_impl. intros r Hr.
  apply andb_prop in Hr as [Hid Hr]. rewrite Hid. cbn [andb].
  unfold has_data_at in *. apply existsb_exists in Hr as (e & He & Hr).
  apply existsb_exists. exists e. split; [done|].
  apply andb_prop in Hr as [Hr _]. by rewrite Hr.
Qed.

(** When the runs of the collection have distinct numbers,
    [get_runs_from_db] never returns more runs than there are run ids, so a
    cell never shows more than its total, repeated run ids included. *)
Theorem get_runs_from_db_at_most_run_ids ids dt h loc w :
  NoDup (number <$> runs db) →
  ∃ found, (get_runs_from_db db ids dt h loc w).1 = Ok found
           ∧ (length found ≤ length ids)%nat.
Proof.
  intros Hruns. eexists. rewrite get_runs_from_db_found. split; [done|].
  apply submseteq_length, NoDup_submseteq.
  - revert Hruns. generalize (runs db) as rs.
    induction rs as [|r rs IH]; intros Hnd; [constructor|].
    cbn [fmap list_fmap] in Hnd. apply NoDup_cons in Hnd as [Hr Hnd].
    cbn [List.filter]. destruct (_ && _); [|by apply IH].
    cbn [fmap list_fmap]. apply NoDup_cons. split; [|by apply IH].
    intros Hin. apply Hr. apply list_elem_of_fmap in Hin as (r' & -> & Hin).
    apply list_elem_of_fmap. exists r'. split; [done|].
    apply list_elem_of_In in Hin. apply filter_In in Hin as [Hin _].
    by apply list_elem_of_In.
  - intros n Hn. apply list_elem_of_fmap in Hn as (r & -> & Hr).
    apply list_elem_of_In, filter_In in Hr as [_ Hr].
    apply andb_prop in Hr as [Hr _]. apply existsb_exists in Hr as (n & Hn & Heq).
    apply Z.eqb_eq in Heq. rewrite Heq. by apply list_elem_of_In.
Qed.

End RunsFromDb.

Lemma get_runs_from_db_at_most_run_ids_witness :
  NoDup (number <$> runs example_db)
  ∧ ∃ found,
      (get_runs_from_db example_db [1; 1; 2] "peaklets" "abc" "UC_DALI_USERDISK"
         script_world).1 = Ok found
      ∧ (length found ≤ length [1; 1; 2]%Z)%nat.
Proof.
  assert (H : NoDup (number <$> runs example_db)).
  { apply (bool_decide_unpack _). by vm_compute. }
  split; [exact H|].
  exact (get_runs_from_db_at_most_run_ids example_db [1; 1; 2] "peaklets" "abc"
           "UC_DALI_USERDISK" script_world H).
Defined.

(** ** The text of a cell *)

(** A location where none of the run ids has the data reads [0 (0.0%)],
    whatever the number of run ids. *)
Theorem availability_cell_none total :
  (1 ≤ total)%nat → availability_cell 0 total = Ok "0 (0.0%)".
Proof.
  intros Ht. unfold availability_cell, PyFloat.int_true_divide.
  destruct (Z.of_nat total) as [|p|p] eqn:Hz; [lia| |lia].
  reflexivity.
Qed.

Lemma availability_cell_none_witness :
  (1 ≤ 7)%nat ∧ availability_cell 0 7 = Ok "0 (0.0%)".
Proof. split; [lia|]. apply availability_cell_none. lia. Defined.

(** For up to 128 run ids, a cell shows the count and, with one decimal, a
    tenth of a percent nearest to the exact percentage: the two roundings to
    floats in [n / total * 100] never move it to another tenth. *)
Theorem availability_cell_nearest_tenth (n total : nat) :
  (1 ≤ total ≤ 128)%nat → (n ≤ total)%nat →
  ∃ t, availability_cell n total
       = Ok (PyStr.str_of_N (N.of_nat n) ++ " (" ++ PyStr.str_of_N (Z.to_N (t / 10))
             ++ "." ++ PyStr.str_of_N (Z.to_N (t mod 10)) ++ "%)")
       ∧ Z.abs (t * Z.of_nat total - 1000 * Z.of_nat n) * 2 <= Z.of_nat total.
Proof.
  intros Ht Hn. destruct (percent_nearest_tenth n total Ht Hn) as (t & Hp & Hnear).
  exists t. split; [by apply availability_cell_tenths|done].
Qed.

Lemma availability_cell_nearest_tenth_witness :
  (1 ≤ 80 ≤ 128)%nat ∧ (1 ≤ 80)%nat
  ∧ ∃ t, availability_cell 1 80
         = Ok (PyStr.str_of_N (N.of_nat 1) ++ " (" ++ PyStr.str_of_N (Z.to_N (t / 10))
               ++ "." ++ PyStr.str_of_N (Z.to_N (t mod 10)) ++ "%)")
         ∧ Z.abs (t * Z.of_nat 80 - 1000 * Z.of_nat 1) * 2 <= Z.of_nat 80.
Proof.
  split; [lia|]. split; [lia|].
  apply (availability_cell_nearest_tenth 1 80); lia.
Defined.

(** ** The rounds of the availability counter *)

Section RoundsMore.
Variable db : database.

(** Used as a library, without the script having bound the global
    [data_type], the counter fails with [NameError] as soon as a context
    needs the lookup by version: here the first context, after its primary
    request and before any other. *)
Theorem check_runs_available_unbound_data_type dt ids extra w lh vs :
  ids ≠ [] →
  g_data_type w = None →
  primary_lookup db "xenonnt_v14" "2024.01.1" dt = Ok (lh, vs) →
  truthy_hash lh = None →
  check_runs_available db dt ids extra w
  = (Raise (NameError "data_type"),
     set_db_log (db_log w ++ [DbFindOne "contexts"
                                (primary_query "xenonnt_v14" "2024.01.1")
                                (primary_projection dt)]) w).
Proof.
  intros Hids Hg Hp Hh. unfold check_runs_available.
  destruct ids as [|id ids]; [done|].
  unfold RECOMMENDED. cbn [foldM]. rewrite bind_unfold.
  unfold check_context at 1. rewrite bind_unfold, resolve_lineage_run. cbv zeta.
  rewrite Hp, Hh.
  change (ENV_VERSIONS !! "xenonnt_v14")
    with (Some [("straxen_version", "2.2.0"); ("strax_version", "1.6.0");
                ("cutax_version", "1.16.0")] : option (pydict string)).
  cbv iota beta. by rewrite get_lineae_hash_from_version_unbound.
Qed.

(** A context that neither lookup resolves, the lookup by version finding no
    hash either, is skipped: its round returns the rows it was given, prints
    one notice and appends the extra location as every round does. *)
Theorem check_context_skips_unresolved dt ids extra docs c env w lh vs0 versions lh2 :
  primary_lookup db c env dt = Ok (lh, vs0) →
  truthy_hash lh = None →
  ENV_VERSIONS !! c = Some versions →
  version_lookup db (g_data_type w) c versions = Ok lh2 →
  truthy_hash lh2 = None →
  ∃ w', check_context db dt ids extra docs (c, env) w = (Ok docs, w')
        ∧ stdout w' = (stdout w ++ ["Lineage hash not found for " +:+ c +:+ " and "
                                    +:+ env])%list
        ∧ g_LOCATIONS w' = (g_LOCATIONS w ++ extra_list extra)%list
        ∧ List.filter (λ call, negb (to_contexts call)) (issued
            (check_context db dt ids extra docs (c, env)) w) = [].
Proof.
  intros Hp Hh Hvs Hv Hh2. unfold issued, check_context.
  rewrite bind_unfold, resolve_lineage_run. cbv zeta. rewrite Hp, Hh, Hvs.
  set (w1 := set_db_log _ w).
  destruct (g_data_type w) as [gdt|] eqn:Hg; [|done].
  rewrite (get_lineae_hash_from_version_run db c versions w1 gdt) by done.
  change (g_data_type w1) with (g_data_type w). rewrite Hg, Hv.
  set (w2 := set_db_log _ w1).
  rewrite (report_context_unresolved _ _ _ _ _ _ _ _ _ Hh2). cbv zeta.
  eexists. split; [reflexivity|]. cbn [stdout g_LOCATIONS set_stdout snd db_log].
  rewrite append_extra_locations. split; [|split; [done|]].
  - unfold append_extra. by destruct (truthy_hash extra).
  - assert (Hlog : db_log (append_extra extra w2)
                   = (db_log w ++ [DbFindOne "contexts" (primary_query c env)
                                              (primary_projection dt);
                                   DbFindOne "contexts" (version_query c versions)
                                              ["hashes." +:+ gdt]])%list).
    { unfold append_extra. destruct (truthy_hash extra); subst w2 w1;
        cbn [db_log set_db_log set_LOCATIONS]; by rewrite <- app_assoc. }
    rewrite Hlog, drop_app_length. reflexivity.
Qed.

(** The lookup by version does not tolerate a document without the hash: when
    the document found by name and versions has no hash for the data type,
    the round ends with [KeyError] instead of skipping the context, unlike
    the primary lookup, for which a missing hash only means unresolved. *)
Theorem check_context_version_document_without_hash dt ids extra docs c env w
    lh vs0 versions gdt res hs :
  primary_lookup db c env dt = Ok (lh, vs0) →
  truthy_hash lh = None →
  ENV_VERSIONS !! c = Some versions →
  g_data_type w = Some gdt →
  List.find (λ d, matches (ctx_view d) (version_query c versions)) (contexts db)
  = Some res →
  hashes res = Some hs →
  hs !! gdt = None →
  (check_context db dt ids extra docs (c, env) w).1 = Raise (KeyError gdt).
Proof.
  intros Hp Hh Hvs Hg Hfind Hhs Hnone. unfold check_context.
  rewrite bind_unfold, resolve_lineage_run. cbv zeta. rewrite Hp, Hh, Hvs.
  set (w1 := set_db_log _ w).
  rewrite (get_lineae_hash_from_version_run db c versions w1 gdt) by done.
  change (g_data_type w1) with (g_data_type w). rewrite Hg.
  unfold version_lookup, get_lineae_hash_from_version, find_one_contexts.
  rewrite bind_unfold. unfold global_data_type at 1. cbn [g_data_type initial_world].
  run_M. rewrite Hfind, Hhs, Hnone. reflexivity.
Qed.

End RoundsMore.

(** ** The shape of the report *)

Section Report.
Variable db : database.

(** The versions a resolved round works with are the three version fields,
    whichever lookup supplied them. *)
Lemma resolve_lineage_versions dt item w lh vs wa h :
  resolve_lineage db dt item w = (Ok (lh, vs), wa) →
  truthy_hash lh = Some h →
  ∃ a b c, vs = [("straxen_version", a); ("strax_version", b);
                 ("cutax_version", c)].
Proof.
  destruct item as [c env]. rewrite resolve_lineage_run. cbv zeta.
  destruct (primary_lookup db c env dt) as [[lh0 vs0]|e] eqn:Hp; [|done].
  destruct (truthy_hash lh0) as [h0|] eqn:Hh0.
  - intros [= <- <- <-] Hh.
    destruct (primary_lookup_document _ _ _ _ _ _ _ Hp Hh) as (res & _ & ->).
    by eexists _, _, _.
  - destruct (ENV_VERSIONS !! c) as [versions|] eqn:Hvs; [|done].
    destruct (get_lineae_hash_from_version _ _ _ _) as [[lh2|e] w2]; [|done].
    intros [= <- <- <-] _. by eapply ENV_VERSIONS_entry.
Qed.

Lemma check_contexts_rows dt ids extra g items :
  ∀ docs wi rows w',
    g_data_type wi = g →
    (∀ loc, loc ∈ g_LOCATIONS wi ∨ truthy_hash extra = Some loc →
            loc ∉ fixed_columns) →
    foldM (check_context db dt ids extra) items docs wi = (Ok rows, w') →
    ∃ new, rows = (docs ++ new)%list
           ∧ Forall2 (row_of_context db g dt ids)
               (List.filter (λ item, bool_decide (is_Some (resolved_hash db g dt item)))
                            items)
               new.
Proof.
  induction items as [|item items IH]; intros docs wi rows w' Hg Hno Hrun.
  - simpl in Hrun. rewrite mret_run in Hrun. simplify_eq.
    exists []. split; [by rewrite app_nil_r|constructor].
  - cbn [foldM] in Hrun. rewrite bind_unfold in Hrun.
    destruct (check_context db dt ids extra docs item wi) as [[docs1|e] w1] eqn:Hc;
      [|done].
    apply check_context_returns in Hc
      as (lh & vs & wa & Hres & _ & _ & Hl & Hg' & Hrow).
    assert (Hno1 : ∀ loc, loc ∈ g_LOCATIONS w1 ∨ truthy_hash extra = Some loc →
                          loc ∉ fixed_columns).
    { intros loc [Hloc|Hloc]; [|by apply Hno; right].
      rewrite Hl in Hloc. apply elem_of_app in Hloc as [Hloc|Hloc];
        [by apply Hno; left|].
      unfold extra_list in Hloc. destruct (truthy_hash extra) as [x|] eqn:Hx.
      - apply list_elem_of_singleton in Hloc as ->. by apply Hno; right.
      - by apply elem_of_nil in Hloc. }
    destruct (IH docs1 w1 rows w' ltac:(congruence) Hno1 Hrun) as (new & -> & Hnew).
    pose proof (resolved_hash_run db dt item wi lh vs wa Hres) as Hrh.
    rewrite Hg in Hrh. cbn [List.filter]. rewrite Hrh.
    destruct (truthy_hash lh) as [h|] eqn:Hh.
    + destruct Hrow as (doc & -> & Hloop).
      rewrite bool_decide_eq_true_2 by by eexists.
      exists (doc :: new). split; [by rewrite <- app_assoc|].
      constructor; [|done]. exists h. split; [done|].
      apply check_locations_run in Hloop as [Hout _].
      destruct (resolve_lineage_versions _ _ _ _ _ _ _ Hres Hh) as (a & b & c & ->).
      assert (Hk : ∀ k, k ∈ fixed_columns → k ∉ g_LOCATIONS w1).
      { intros k Hk Hin. by apply (Hno1 k); [left|]. }
      rewrite !Hout by (apply Hk; unfold fixed_columns; set_solver).
      done.
    + subst docs1. rewrite bool_decide_eq_false_2 by by intros [? ?].
      by exists new.
Qed.

(** The report has one row for each recommended context whose lineage hash
    is resolved, in the order of [RECOMMENDED], and no other row; the row of
    a context shows the context, its environment, the number of run ids
    checked and the resolved hash, provided no checked location is named
    like one of these four columns. *)
Theorem check_runs_available_rows dt ids extra w rows w' :
  check_runs_available db dt ids extra w = (Ok rows, w') →
  (∀ loc, loc ∈ g_LOCATIONS w ∨ truthy_hash extra = Some loc →
          loc ∉ fixed_columns) →
  Forall2 (λ item r,
             ∃ h, resolved_hash db (g_data_type w) dt item = Some h
                  ∧ dict_get r "Context" = Some (PStr item.1)
                  ∧ dict_get r "Environment" = Some (PStr item.2)
                  ∧ dict_get r "Total Checked" = Some (PInt (Z.of_nat (length ids)))
                  ∧ dict_get r "LineageHash" = Some (PStr h))
          (List.filter
             (λ item, bool_decide (is_Some (resolved_hash db (g_data_type w) dt item)))
             RECOMMENDED)
          rows.
Proof.
  intros Hrun Hno. unfold check_runs_available in Hrun.
  destruct ids as [|id ids]; [done|].
  destruct (check_contexts_rows dt (id :: ids) extra (g_data_type w) RECOMMENDED
              [] w rows w' eq_refl Hno Hrun) as (new & -> & Hnew).
  exact Hnew.
Qed.

(** A report never has more rows than there are recommended contexts. *)
Theorem check_runs_available_at_most_five_rows dt ids extra w rows w' :
  check_runs_available db dt ids extra w = (Ok rows, w') →
  (length rows ≤ 5)%nat.
Proof.
  intros Hrun. unfold check_runs_available in Hrun.
  destruct ids as [|id ids]; [done|].
  assert (H : ∀ items docs wi rows w',
            foldM (check_context db dt (id :: ids) extra) items docs wi = (Ok rows, w') →
            (length rows ≤ length docs + length items)%nat).
  { clear. induction items as [|item items IH]; intros docs wi rows w' Hrun.
    - simpl in Hrun. rewrite mret_run in Hrun. simplify_eq. simpl. lia.
    - cbn [foldM] in Hrun. rewrite bind_unfold in Hrun.
      destruct (check_context _ _ _ _ docs item wi) as [[docs1|e] w1] eqn:Hc; [|done].
      apply check_context_returns in Hc as (lh & vs & wa & _ & _ & _ & _ & _ & Hrow).
      apply IH in Hrun. cbn [length].
      destruct (truthy_hash lh).
      + destruct Hrow as (doc & -> & _). rewrite length_app in Hrun. simpl in Hrun. lia.
      + subst. lia. }
  apply H in Hrun. simpl in Hrun. lia.
Qed.

End Report.

(** ** What the functions leave alone *)

#[global] Instance only_appends_preorder : PreOrder only_appends.
Proof.
  split.
  - intros w. repeat split; try (exists []; by rewrite app_nil_r).
  - intros w1 w2 w3 ((l1 & H1) & (m1 & M1) & (o1 & O1) & S1 & D1)
             ((l2 & H2) & (m2 & M2) & (o2 & O2) & S2 & D2).
    repeat split; [exists (l1 ++ l2)%list|exists (m1 ++ m2)%list
                   |exists (o1 ++ o2)%list|..];
      rewrite ?app_assoc; congruence.
Qed.

(** Whatever its outcome, [check_runs_available] only appends: the locations,
    requests and printed lines that were there are still there, in place, and
    the table [SCIENCE_RUNS] and the global [data_type] are not written. *)
Theorem check_runs_available_only_appends db dt ids extra w :
  only_appends w (check_runs_available db dt ids extra w).2.
Proof.
  apply (check_runs_available_respects only_appends).
  - intros q p w0. repeat split; try (exists []; by rewrite app_nil_r). by eexists.
  - intros q p w0. repeat split; try (exists []; by rewrite app_nil_r). by eexists.
  - intros line w0. repeat split; try (exists []; by rewrite app_nil_r). by eexists.
  - intros x w0 _. repeat split; try (exists []; by rewrite app_nil_r). by eexists.
Qed.

(** [get_runs_from_source] prints nothing and leaves [LOCATIONS] and the
    global [data_type] alone; of the table [SCIENCE_RUNS] it writes at most
    the entry of its science run. *)
Theorem get_runs_from_source_writes_one_entry db sr src w :
  let w' := (get_runs_from_source db sr src w).2 in
  stdout w' = stdout w
  ∧ g_LOCATIONS w' = g_LOCATIONS w
  ∧ g_data_type w' = g_data_type w
  ∧ ∀ sr', sr' ≠ sr → g_SCIENCE_RUNS w' !! sr' = g_SCIENCE_RUNS w !! sr'.
Proof.
  destruct (g_SCIENCE_RUNS w !! sr) as [q0|] eqn:Hq.
  - rewrite (get_runs_from_source_run db sr src w q0 Hq). cbn.
    repeat split. intros sr' Hne. by rewrite lookup_insert_ne.
  - rewrite (get_runs_from_source_unknown db sr src w Hq). by cbn.
Qed.

(** ** Lines that pass [isdigit] *)

Lemma digit_char_plain c :
  PyStr.is_digit_char c = true →
  PyStr.is_space c = false ∧ (PyStr.code c =? 95)%N = false
  ∧ (PyStr.code c =? 45)%N = false ∧ (PyStr.code c =? 43)%N = false.
Proof.
  destruct c as [[|] [|] [|] [|] [|] [|] [|] [|]]; vm_compute; intros H;
    first [discriminate H | repeat split].
Qed.

Lemma decimal_char_value c :
  PyStr.is_decimal_char c = true → 0 <= PyStr.digit_val c.
Proof.
  destruct c as [[|] [|] [|] [|] [|] [|] [|] [|]]; vm_compute; intros H;
    first [discriminate H | discriminate].
Qed.

Lemma digit_line_no_space line :
  PyStr.all_chars PyStr.is_digit_char line = true →
  PyStr.all_chars (λ c, negb (PyStr.is_space c)) line = true.
Proof.
  induction line as [|c line IH]; [done|]. simpl. intros H.
  apply andb_prop in H as [Hc Hl]. destruct (digit_char_plain c Hc) as [-> _].
  by rewrite IH.
Qed.

(** On a line that passes [isdigit], [int] reads the digits as they are:
    nothing is stripped and there is no sign. *)
Lemma int_digit_line line :
  PyStr.isdigit line = true → PyStr.int line = PyStr.int_digits 0 false line.
Proof.
  destruct line as [|c line]; [done|]. unfold PyStr.isdigit. intros Hd.
  pose proof (digit_line_no_space _ Hd) as Hsp.
  unfold PyStr.int, PyStr.strip.
  rewrite (lstrip_no_space _ Hsp), (rstrip_no_space _ Hsp).
  simpl in Hd. apply andb_prop in Hd as [Hc _].
  destruct (digit_char_plain c Hc) as (_ & _ & -> & ->). done.
Qed.

Lemma int_digits_nonneg line :
  ∀ acc b n, 0 <= acc → PyStr.int_digits acc b line = Some n → 0 <= n.
Proof.
  induction line as [|c line IH]; intros acc b n Hacc; simpl.
  - destruct b; intros; by simplify_eq.
  - destruct (PyStr.code c =? 95)%N.
    + destruct b; [|done]. by apply IH.
    + destruct (PyStr.is_decimal_char c) eqn:Hc; [|done].
      apply IH. pose proof (decimal_char_value c Hc). lia.
Qed.

Lemma int_digits_not_decimal line :
  ∀ acc b, PyStr.all_chars PyStr.is_digit_char line = true →
    PyStr.all_chars PyStr.is_decimal_char line = false →
    PyStr.int_digits acc b line = None.
Proof.
  induction line as [|c line IH]; intros acc b Hd Hn; [done|].
  simpl in *. apply andb_prop in Hd as [Hc Hl].
  destruct (digit_char_plain c Hc) as (_ & -> & _).
  destruct (PyStr.is_decimal_char c); [|done]. by apply IH.
Qed.

Section ReadFileMore.

Lemma read_lines_run lines w :
  (mapM (λ run_id, match PyStr.int run_id with
                   | Some n => ret n
                   | None => raise (ValueError "invalid literal for int()")
                   end)
        lines w).2 = w
  ∧ match (mapM (λ run_id, match PyStr.int run_id with
                           | Some n => ret n
                           | None => raise (ValueError "invalid literal for int()")
                           end)
                lines w).1 with
    | Ok ids => Forall2 (λ line n, PyStr.int line = Some n) lines ids
    | Raise e => e = ValueError "invalid literal for int()"
                 ∧ ∃ line, line ∈ lines ∧ PyStr.int line = None
    end.
Proof.
  induction lines as [|line lines [IHw IH]]; [by repeat constructor|].
  cbn [mapM]. rewrite bind_unfold.
  destruct (PyStr.int line) as [n|] eqn:Hn.
  - rewrite ret_run. cbv iota. rewrite bind_unfold.
    destruct (mapM _ lines w) as [[ids|e] w1]; cbn [fst snd] in *; subst w1.
    + rewrite mret_run. split; [done|]. by constructor.
    + split; [done|]. destruct IH as (-> & l & Hl & Hnone).
      split; [done|]. exists l. split; [by right|done].
  - split; [done|]. split; [done|]. exists line. split; [by left|done].
Qed.

(** Reading an existing file changes nothing in the world, whether it returns
    or raises; the ids it returns are never negative and there are no more
    of them than lines in the file. *)
Theorem read_run_ids_from_file_ids fs filename content w :
  fs filename = Some content →
  (read_run_ids_from_file fs filename w).2 = w
  ∧ ∀ ids, (read_run_ids_from_file fs filename w).1 = Ok ids →
      Forall (λ n, 0 <= n) ids
      ∧ (length ids ≤ length (PyStr.splitlines content))%nat.
Proof.
  intros Hf. unfold read_run_ids_from_file. rewrite Hf.
  destruct (read_lines_run (List.filter PyStr.isdigit (PyStr.splitlines content)) w)
    as [Hw Hres].
  split; [done|]. intros ids Hids. rewrite Hids in Hres. split.
  - assert (Hd : Forall (λ line, PyStr.isdigit line = true)
                   (List.filter PyStr.isdigit (PyStr.splitlines content))).
    { apply Forall_forall. intros line Hl.
      by apply list_elem_of_In, filter_In in Hl as [_ ?]. }
    clear Hids Hw. revert Hres Hd.
    generalize (List.filter PyStr.isdigit (PyStr.splitlines content)).
    intros lines Hres. induction Hres as [|line n lines ids' Hn _ IH]; intros Hd;
      [done|].
    apply Forall_cons in Hd as [Hline Hd]. constructor; [|by apply IH].
    rewrite (int_digit_line _ Hline) in Hn. by eapply int_digits_nonneg.
  - apply Forall2_length in Hres. rewrite <- Hres. apply List.filter_length_le.
Qed.

(** A line that passes [isdigit] without being made of the digits 0 to 9,
    such as a line of superscript digits, is not dropped: the whole read ends
    with [ValueError]. *)
Theorem read_run_ids_from_file_digit_not_decimal fs filename content line w :
  fs filename = Some content →
  line ∈ PyStr.splitlines content →
  PyStr.isdigit line = true →
  PyStr.all_chars PyStr.is_decimal_char line = false →
  read_run_ids_from_file fs filename w
  = (Raise (ValueError "invalid literal for int()"), w).
Proof.
  intros Hf Hline Hd Hn. unfold read_run_ids_from_file. rewrite Hf.
  destruct (read_lines_run (List.filter PyStr.isdigit (PyStr.splitlines content)) w)
    as [Hw Hres].
  destruct (mapM _ _ w) as [[ids|e] w1]; cbn [fst snd] in *; subst w1.
  - exfalso.
    assert (Hin : line ∈ List.filter PyStr.isdigit (PyStr.splitlines content)).
    { apply list_elem_of_In, filter_In. split; [by apply list_elem_of_In|done]. }
    apply list_elem_of_lookup in Hin as [i Hi].
    destruct (Forall2_lookup_l _ _ _ _ _ Hres Hi) as (n & _ & Hint).
    rewrite (int_digit_line _ Hd) in Hint.
    rewrite int_digits_not_decimal in Hint; [done| |done].
    destruct line; [done|exact Hd].
  - by destruct Hres as [-> _].
Qed.

End ReadFileMore.

Lemma read_run_ids_from_file_ids_witness :
  example_fs "runs.txt"
  = Some ("12" ++ LF ++ "-5" ++ LF ++ "abc" ++ CR ++ LF ++ LF ++ "12" ++ LF
          ++ "007" ++ LF)
  ∧ (read_run_ids_from_file example_fs "runs.txt" script_world).2 = script_world.
Proof.
  split; [reflexivity|].
  exact (proj1 (read_run_ids_from_file_ids example_fs "runs.txt" _ script_world
                  eq_refl)).
Defined.

(** A file whose second line is the superscript two. *)
Lemma read_run_ids_from_file_digit_not_decimal_witness :
  let content := "12" ++ LF ++ String (ascii_of_nat 178) "" ++ LF ++ "7" in
  PyStr.isdigit (String (ascii_of_nat 178) "") = true
  ∧ read_run_ids_from_file (λ _, Some content) "runs.txt" script_world
    = (Raise (ValueError "invalid literal for int()"), script_world).
Proof.
  intros content. split; [reflexivity|].
  apply (read_run_ids_from_file_digit_not_decimal (λ _, Some content) "runs.txt"
           content (String (ascii_of_nat 178) "")); try reflexivity.
  apply (bool_decide_unpack _). by vm_compute.
Defined.

(** ** The exceptions the functions can raise *)

Section Raises.
Context (I : world → Prop) (E : exn → Prop).

(** Started in a world that satisfies [I], the computation ends in such a
    world and raises only exceptions that satisfy [E]. *)
Definition raises_within {A} (m : M A) : Prop :=
  ∀ w, I w → I (m w).2 ∧ ∀ e, (m w).1 = Raise e → E e.

Lemma raises_ret {A} (a : A) : raises_within (ret a).
Proof. intros w Hw. by split. Qed.

Lemma raises_raise {A} e : E e → raises_within (@raise A e).
Proof. intros He w Hw. split; [done|]. by intros e' [= <-]. Qed.

Lemma raises_lift {A} (r : result A) :
  (∀ e, r = Raise e → E e) → raises_within (lift_result r).
Proof. intros Hr w Hw. by split. Qed.

Lemma raises_bind {A B} (m : M A) (k : A → M B) :
  raises_within m → (∀ a, raises_within (k a)) → raises_within (m ≫= k).
Proof.
  intros Hm Hk w Hw. rewrite bind_unfold. destruct (Hm w Hw) as [Hw1 He].
  destruct (m w) as [[a|e] w1]; cbn [fst snd] in *; [by apply Hk|].
  split; [done|]. intros e' [= <-]. by apply He.
Qed.

Lemma raises_foldM {A B} (body : A → B → M A) l :
  (∀ a x, raises_within (body a x)) → ∀ acc, raises_within (foldM body l acc).
Proof.
  intros Hb. induction l as [|x l IH]; intros acc; cbn [foldM].
  - intros w Hw. by split.
  - apply raises_bind; auto.
Qed.

Lemma raises_mapM {A B} (g : A → M B) l :
  (∀ a, raises_within (g a)) → raises_within (mapM g l).
Proof.
  intros Hg. induction l as [|x l IH]; cbn [mapM].
  - intros w Hw. by split.
  - apply raises_bind; [done|]. intros y. apply raises_bind; [done|].
    intros ys w Hw. by split.
Qed.

Variable db : database.
Variable fs : string → option string.
Hypothesis I_log : ∀ l w, I w → I (set_db_log l w).
Hypothesis I_out : ∀ l w, I w → I (set_stdout l w).
Hypothesis I_loc : ∀ l w, I w → I (set_LOCATIONS l w).
Hypothesis I_table : ∀ t w, I w → I (set_SCIENCE_RUNS t w).
Hypothesis E_key : ∀ k, E (KeyError k).
Hypothesis E_overflow : E OverflowError.
Hypothesis E_empty : E (ValueError "No run_ids found").
Hypothesis E_literal : E (ValueError "invalid literal for int()").
Hypothesis E_name : ∀ w, I w → g_data_type w = None → E (NameError "data_type").

Lemma raises_log_call c : raises_within (log_call c).
Proof. intros w Hw. split; [by apply I_log|done]. Qed.

Lemma raises_print line : raises_within (print line).
Proof. intros w Hw. split; [by apply I_out|done]. Qed.

Lemma raises_global_data_type : raises_within global_data_type.
Proof.
  intros w Hw. unfold global_data_type.
  destruct (g_data_type w) eqn:Hg; [by split|].
  split; [done|]. intros e [= <-]. by eapply E_name.
Qed.

Ltac step :=
  match goal with
  | |- raises_within (ret _) => apply raises_ret
  | |- raises_within (mret _) => apply raises_ret
  | |- raises_within (raise _) => apply raises_raise; auto
  | |- raises_within global_data_type => apply raises_global_data_type
  | |- raises_within (log_call _) => apply raises_log_call
  | |- raises_within (print _) => apply raises_print
  | |- raises_within (_ ≫= _) => apply raises_bind; [|intros ?]
  | |- raises_within (foldM _ _ _) => apply raises_foldM; intros ? ?
  | |- raises_within (mapM _ _) => apply raises_mapM; intros ?
  | |- raises_within (match ?x with _ => _ end) => destruct x eqn:?
  end.

Lemma get_lineage_hash_raises c env dt : raises_within (get_lineage_hash db c env dt).
Proof. unfold get_lineage_hash, find_one_contexts. repeat step. Qed.

Lemma get_lineae_hash_from_version_raises c vs :
  raises_within (get_lineae_hash_from_version db c vs).
Proof. unfold get_lineae_hash_from_version, find_one_contexts. repeat step. Qed.

Lemma resolve_lineage_raises dt item : raises_within (resolve_lineage db dt item).
Proof.
  unfold resolve_lineage. step; [apply get_lineage_hash_raises|].
  step; [step|]. step; [|step].
  step; [apply get_lineae_hash_from_version_raises|step].
Qed.

Lemma check_location_raises dt ids h doc loc :
  ids ≠ [] → raises_within (check_location db dt ids h doc loc).
Proof.
  intros Hids w Hw. rewrite check_location_run. cbn [fst snd].
  split; [by apply I_log|]. intros e He.
  destruct (location_cell db ids dt h loc) as [cell|e'] eqn:Hcell; [done|].
  simplify_eq. by apply location_cell_raise in Hcell as [->|[_ ?]].
Qed.

Lemma report_context_raises dt ids extra docs item found :
  ids ≠ [] → raises_within (report_context db dt ids extra docs item found).
Proof.
  intros Hids. unfold report_context. step.
  - destruct (truthy_hash extra); [|step]. intros w Hw. split; [by apply I_loc|done].
  - step; [by intros w Hw|]. step.
    + step; [|step]. apply raises_foldM. intros. by apply check_location_raises.
    + repeat step.
Qed.

Lemma check_runs_available_raises dt ids extra :
  raises_within (check_runs_available db dt ids extra).
Proof.
  unfold check_runs_available. destruct ids as [|id ids]; [step|].
  apply raises_foldM. intros docs item. unfold check_context. step.
  - apply resolve_lineage_raises.
  - by apply report_context_raises.
Qed.

Lemma get_runs_from_source_raises sr src :
  raises_within (get_runs_from_source db sr src).
Proof.
  unfold get_runs_from_source, find. step.
  - intros w Hw. unfold getitem_SCIENCE_RUNS.
    destruct (g_SCIENCE_RUNS w !! sr); split; try done. intros e [= <-]. apply E_key.
  - step; [intros w Hw; split; [by apply I_table|done]|]. repeat step.
Qed.

Lemma read_run_ids_from_file_raises filename :
  raises_within (read_run_ids_from_file fs filename).
Proof. unfold read_run_ids_from_file. repeat step. Qed.

End Raises.


(** Once the global [data_type] is bound, as the script binds it, no call of
    [check_runs_available] raises [NameError]. *)
Theorem check_runs_available_bound_no_name_error db dt ids extra w s :
  is_Some (g_data_type w) →
  (check_runs_available db dt ids extra w).1 ≠ Raise (NameError s).
Proof.
  intros Hg He.
  refine (proj2 (check_runs_available_raises (λ w, is_Some (g_data_type w))
            (λ e, ∀ s, e ≠ NameError s) db _ _ _ _ _ _ _ dt ids extra w Hg)
            _ He s eq_refl); try done.
  intros w0 [x Hx] Hnone. congruence.
Qed.

Lemma check_runs_available_bound_no_name_error_witness :
  is_Some (g_data_type script_world)
  ∧ (check_runs_available empty_db "peaklets" [7] None script_world).1
    ≠ Raise (NameError "data_type").
Proof.
  split; [by eexists|].
  apply check_runs_available_bound_no_name_error. by eexists.
Defined.

Lemma check_runs_available_unbound_data_type_witness :
  [7] ≠ [] ∧ g_data_type (initial_world None) = None
  ∧ check_runs_available empty_db "peaklets" [7] (Some "X") (initial_world None)
    = (Raise (NameError "data_type"),
       set_db_log [DbFindOne "contexts" (primary_query "xenonnt_v14" "2024.01.1")
                             (primary_projection "peaklets")]
                  (initial_world None)).
Proof.
  split; [done|]. split; [done|].
  exact (check_runs_available_unbound_data_type empty_db "peaklets" [7] (Some "X")
           (initial_world None) None [] ltac:(done) eq_refl eq_refl eq_refl).
Defined.

Lemma check_context_skips_unresolved_witness :
  ∃ w', check_context empty_db "peaklets" [7] None [] ("xenonnt_v14", "2024.01.1")
          script_world = (Ok [], w')
        ∧ stdout w' = ["Lineage hash not found for xenonnt_v14 and 2024.01.1"].
Proof.
  destruct (check_context_skips_unresolved empty_db "peaklets" [7] None []
              "xenonnt_v14" "2024.01.1" script_world None []
              [("straxen_version", "2.2.0"); ("strax_version", "1.6.0");
               ("cutax_version", "1.16.0")] None)
    as (w' & Hrun & Hout & _); try (vm_compute; reflexivity).
  exists w'. split; [exact Hrun|exact Hout].
Defined.

Lemma check_context_version_document_without_hash_witness :
  (check_context partial_db "peaklets" [7] None [] ("xenonnt_v13", "2023.11.1")
     script_world).1 = Raise (KeyError "peaklets").
Proof.
  apply (check_context_version_document_without_hash partial_db "peaklets" [7] None []
           "xenonnt_v13" "2023.11.1" script_world None []
           [("straxen_version", "2.1.5"); ("strax_version", "1.5.4");
            ("cutax_version", "1.15.5")] "peaklets"
           (mk_ctx_doc "xenonnt_v13" "2023.09.0" (Some {["event_info" := "xyz"]})
              (Some "2.1.5") (Some "1.5.4") (Some "1.15.5"))
           {["event_info" := "xyz"]}); vm_compute; reflexivity.
Defined.

Lemma check_runs_available_rows_witness :
  ∃ rows w',
    check_runs_available example_db "peaklets" [1; 2; 3] None script_world
    = (Ok rows, w')
    ∧ (λ r, dict_get r "Context") <$> rows
      = [Some (PStr "xenonnt_v14"); Some (PStr "xenonnt_v13"); Some (PStr "xenonnt_v8")]
    ∧ Forall2 (row_of_context example_db (Some "peaklets") "peaklets" [1; 2; 3])
        (List.filter
           (λ item, bool_decide (is_Some (resolved_hash example_db (Some "peaklets")
                                            "peaklets" item)))
           RECOMMENDED)
        rows.
Proof.
  eexists _, _. split; [vm_compute; reflexivity|]. split; [vm_compute; reflexivity|].
  refine (check_runs_available_rows example_db "peaklets" [1; 2; 3] None script_world
            _ _ _ _).
  - vm_compute. reflexivity.
  - intros loc [Hloc|Hloc]; [|done].
    apply elem_of_cons in Hloc as [->|Hloc];
      [|apply elem_of_cons in Hloc as [->|Hloc]; [|by apply elem_of_nil in Hloc]];
      apply (bool_decide_unpack _); by vm_compute.
Defined.

(** ** The script *)

Lemma print_run line w : print line w = (Ok tt, set_stdout (stdout w ++ [line]) w).
Proof. reflexivity. Qed.

Lemma bind_data_type_run dt w :
  bind_data_type dt w
  = (Ok tt, mk_world (g_LOCATIONS w) (g_SCIENCE_RUNS w) (Some dt) (db_log w) (stdout w)).
Proof. reflexivity. Qed.

Ltac run_S :=
  repeat first [rewrite bind_unfold | rewrite log_call_run | rewrite ret_run
               | rewrite mret_run | rewrite print_run | rewrite bind_data_type_run
               | progress cbv iota].

Section ScriptProperties.
Variables (db : database) (fs : string → option string).
Variables (upper : string → string) (to_string : list row → string).

(** With [--filename] naming no file, the script prints its header, the line
    of the file mode and the notice of the missing file, and then ends with
    [ValueError]: the empty list of run ids reaches the counter.  Nothing is
    asked of the database. *)
Theorem main_missing_file a filename w :
  truthy_hash (a_filename a) = Some filename →
  fs filename = None →
  main db fs upper to_string a w
  = (Raise (ValueError "No run_ids found"),
     set_stdout (stdout w ++ [LF +:+ " " +:+ dashes;
                              " Checking for " +:+ upper (a_data_type a)
                                +:+ " from file: " +:+ filename +:+ LF;
                              "File " +:+ filename +:+ " not found"])
                (bind_data_type (a_data_type a) w).2).
Proof.
  intros Hfile Hfs. unfold main. run_S. rewrite Hfile. run_S.
  unfold read_run_ids_from_file. rewrite Hfs. run_S.
  unfold check_runs_available. unfold raise, set_stdout. cbn.
  by rewrite <- !app_assoc.
Qed.

(** When no selector counts as true, which the parser allows for
    [--filename ""] or [--run_id ""], the script ends with [ValueError] right
    after its header. *)
Theorem main_no_selector a w :
  truthy_hash (a_filename a) = None →
  a_source a = None ∨ a_source a = Some [] →
  truthy_hash (a_run_id a) = None →
  main db fs upper to_string a w
  = (Raise (ValueError "No source, filename, or run_id provided"),
     set_stdout (stdout w ++ [LF +:+ " " +:+ dashes])
                (bind_data_type (a_data_type a) w).2).
Proof.
  intros Hfile Hsrc Hrun. unfold main. run_S. rewrite Hfile.
  destruct Hsrc as [-> | ->]; rewrite Hrun; by run_S.
Qed.


(** In source mode, a combination of science run and source that selects no
    run ends the script with [ValueError]: here the first combination, after
    which no other combination is looked up. *)
Theorem main_source_without_runs a sr srs src srcs pred w :
  truthy_hash (a_filename a) = None →
  a_source a = Some (src :: srcs) →
  a_science_run a = sr :: srs →
  SCIENCE_RUNS !! sr = Some pred →
  science_runs_ok (g_SCIENCE_RUNS w) →
  List.filter (λ r, matches (run_view r) pred && String.eqb (source r) src) (runs db)
  = [] →
  (main db fs upper to_string a w).1 = Raise (ValueError "No run_ids found")
  ∧ issued (main db fs upper to_string a) w
    = [DbFind "runs" (dict_set pred "source" (CEq (BStr src))) ["number"]].
Proof.
  intros Hfile Hsrc Hsr Hpred Hok Hnone. unfold issued, main. run_S.
  rewrite Hfile, Hsrc, Hsr. cbn [foldM]. run_S.
  set (w1 := set_stdout _ (set_stdout _ _)).
  rewrite (get_runs_from_source_pristine db sr pred src w1 Hok Hpred). cbv zeta.
  assert (Hfilter : List.filter
            (λ r, matches (run_view r) (dict_set pred "source" (CEq (BStr src))))
            (runs db) = []).
  { rewrite <- Hnone. apply filter_ext. intros r.
    rewrite matches_dict_set_fresh by by eapply SCIENCE_RUNS_no_source.
    by rewrite cond_holds_source. }
  rewrite Hfilter. run_S. unfold check_runs_available. cbn [fmap list_fmap].
  unfold raise. run_S. cbn [fst snd db_log set_db_log set_SCIENCE_RUNS].
  split; [done|]. subst w1. cbn [db_log set_stdout]. by rewrite drop_app_length.
Qed.

(** The script never ends with [NameError]: it binds the global [data_type]
    before any lookup can read it. *)
Theorem main_never_name_error a w s :
  (main db fs upper to_string a w).1 ≠ Raise (NameError s).
Proof.
  set (I := λ w : world, is_Some (g_data_type w)).
  set (E := λ e : exn, ∀ s, e ≠ NameError s).
  assert (Hcheck : ∀ dt ids extra, raises_within I E (check_runs_available db dt ids extra)).
  { intros. apply check_runs_available_raises; try done.
    intros w0 [x Hx] Hnone. congruence. }
  assert (Hprint : ∀ line, raises_within I E (print line)).
  { intros line w0 Hw0. by split. }
  assert (Hreport : ∀ dt ids extra,
            raises_within I E (df ← check_runs_available db dt ids extra;
                               print (to_string df +:+ " " +:+ LF))).
  { intros. apply raises_bind; [apply Hcheck|]. intros df. apply Hprint. }
  unfold main. rewrite bind_unfold, bind_data_type_run. cbv iota.
  set (w1 := mk_world _ _ _ _ _).
  assert (Hw1 : I w1) by by eexists.
  match goal with
  | |- (?m w1).1 ≠ _ => assert (Hm : raises_within I E m)
  end.
  { apply raises_bind; [apply Hprint|]. intros _.
    apply raises_bind; [|intros _; apply Hprint].
    destruct (truthy_hash (a_filename a)) as [filename|].
    - apply raises_bind; [apply Hprint|]. intros _.
      apply raises_bind; [|intros ids; apply Hreport].
      by apply read_run_ids_from_file_raises.
    - destruct (a_source a) as [[|src srcs]|].
      + destruct (truthy_hash (a_run_id a)) as [run_id|];
          [|by apply raises_raise].
        apply raises_bind; [apply Hprint|]. intros _.
        apply raises_bind; [|intros ids; apply Hreport].
        destruct (PyStr.int run_id); [apply raises_ret|by apply raises_raise].
      + apply raises_foldM. intros _ science_run.
        apply raises_foldM. intros _ source.
        apply raises_bind; [apply Hprint|]. intros _.
        apply raises_bind; [|intros ids; apply Hreport].
        by apply get_runs_from_source_raises.
      + destruct (truthy_hash (a_run_id a)) as [run_id|];
          [|by apply raises_raise].
        apply raises_bind; [apply Hprint|]. intros _.
        apply raises_bind; [|intros ids; apply Hreport].
        destruct (PyStr.int run_id); [apply raises_ret|by apply raises_raise]. }
  destruct (Hm w1 Hw1) as [_ Hraise]. intros He. exact (Hraise _ He s eq_refl).
Qed.

End ScriptProperties.


Lemma check_runs_available_at_most_five_rows_witness :
  ∃ rows w',
    check_runs_available example_db "peaklets" [1; 2; 3] None script_world
    = (Ok rows, w')
    ∧ (length rows ≤ 5)%nat.
Proof.
  eexists _, _. split; [vm_compute; reflexivity|].
  refine (check_runs_available_at_most_five_rows example_db "peaklets" [1; 2; 3] None
            script_world _ _ _).
  vm_compute. reflexivity.
Defined.

Lemma main_missing_file_witness :
  let a := mk_args "peaklets" None (Some "missing.txt") None ["sr0"; "sr1"] None in
  (main example_db example_fs id (λ _, "") a (initial_world None)).1
  = Raise (ValueError "No run_ids found")
  ∧ db_log (main example_db example_fs id (λ _, "") a (initial_world None)).2 = [].
Proof.
  intros a.
  rewrite (main_missing_file example_db example_fs id (λ _, "") a "missing.txt"
             (initial_world None) eq_refl eq_refl).
  by split.
Defined.

Lemma main_no_selector_witness :
  let a := mk_args "peaklets" None (Some "") None ["sr0"; "sr1"] None in
  (main example_db example_fs id (λ _, "") a (initial_world None)).1
  = Raise (ValueError "No source, filename, or run_id provided").
Proof.
  intros a.
  by rewrite (main_no_selector example_db example_fs id (λ _, "") a
                (initial_world None) eq_refl (or_introl eq_refl) eq_refl).
Defined.


Lemma main_source_without_runs_witness :
  let a := mk_args "peaklets" (Some ["kr-83m"; "th-232"]) None None ["sr0"; "sr1"]
                   None in
  (main example_db example_fs id (λ _, "") a (initial_world None)).1
  = Raise (ValueError "No run_ids found")
  ∧ length (issued (main example_db example_fs id (λ _, "") a) (initial_world None))
    = 1%nat.
Proof.
  intros a.
  destruct (main_source_without_runs example_db example_fs id (λ _, "") a
              "sr0" ["sr1"] "kr-83m" ["th-232"]
              [("$or", COr [[("tags.name", CEq (BStr "_sr0"))];
                            [("source", CEq (BStr "th-232"));
                             ("start", CLte (BDate (datetime_ymd 2022 8 1)))]])]
              (initial_world None) eq_refl eq_refl eq_refl)
    as [Hres Hlog].
  - vm_compute. reflexivity.
  - apply science_runs_ok_init.
  - vm_compute. reflexivity.
  - split; [exact Hres|]. by rewrite Hlog.
Defined.
